(** * Research assistant demo (demo.py): a shallow embedding

    The script is glue between a Streamlit chat page, a pydantic-ai agent,
    a llama-index retrieval tool and the Tavily search client.  The parts
    written in demo.py are embedded here as functions in a small
    state-and-exception monad over the Streamlit session state and a trace
    of the calls made to the outside world.  The collaborators themselves
    (the agent run, the search provider, the clock) are Section variables. *)

From Stdlib Require Import ZArith Ascii.
From stdpp Require Import gmap strings list fin_maps pretty.

Open Scope string_scope.
Open Scope list_scope.

(** ** Python values used by the script *)

(** What a statement can raise.  [KeyError key] comes from subscripting a
    dict or [os.environ]; [AttributeError msg] carries its message;
    [Raised cls msg] is any other exception of a class [cls] derived from
    [Exception], with [msg] its [str()]; [BaseRaised cls msg] is one whose class
    derives from [BaseException] only ([KeyboardInterrupt], [SystemExit],
    [asyncio.CancelledError]). *)
Inductive Exception : Type :=
| KeyError (key : string)
| AttributeError (msg : string)
| Raised (cls msg : string)
| BaseRaised (cls msg : string).

(** [isinstance(e, Exception)] *)
Definition is_Exception (e : Exception) : bool :=
  match e with
  | BaseRaised _ _ => false
  | _ => true
  end.

(** [repr(s)] for a [str].  Single quotes are used unless the text has a
    single quote and no double quote; the quote in use and the backslash are
    escaped, tab, newline and carriage return are written with their letter,
    the other control characters as [\xhh].  Strings are UTF-8 bytes here;
    the bytes of a character outside ASCII are kept, as [repr] keeps the
    printable ones. *)
Definition double_quote : ascii := "034"%char.
Definition backslash : ascii := "092"%char.

Definition has_char (c : ascii) (s : string) : bool :=
  existsb (Ascii.eqb c) (String.list_ascii_of_string s).

Definition repr_quote (s : string) : ascii :=
  if has_char "'"%char s && negb (has_char double_quote s) then double_quote
  else "'"%char.

Definition hex_digit (n : N) : ascii :=
  nth (N.to_nat n) (String.list_ascii_of_string "0123456789abcdef") "0"%char.

Definition repr_char (quote c : ascii) : string :=
  let code := N_of_ascii c in
  if Ascii.eqb c quote || Ascii.eqb c backslash then String backslash (String c "")
  else if N.eqb code 9 then String backslash "t"
  else if N.eqb code 10 then String backslash "n"
  else if N.eqb code 13 then String backslash "r"
  else if N.ltb code 32 || N.eqb code 127 then
    String backslash (String "x"%char
      (String (hex_digit (N.div code 16)) (String (hex_digit (N.modulo code 16)) "")))
  else String c "".

Fixpoint repr_chars (quote : ascii) (s : string) : string :=
  match s with
  | EmptyString => String quote ""
  | String c s' => repr_char quote c +:+ repr_chars quote s'
  end.

Definition repr (s : string) : string :=
  String (repr_quote s) (repr_chars (repr_quote s) s).

(** [str(e)]: a [KeyError] prints the repr of its key, the others their
    message. *)
Definition str (e : Exception) : string :=
  match e with
  | KeyError key => repr key
  | AttributeError msg => msg
  | Raised _ msg => msg
  | BaseRaised _ msg => msg
  end.

#[global] Instance Exception_eq_dec : EqDecision Exception.
Proof. solve_decision. Defined.

(** The newline character and the separator ["\n\n"] of [response_parts]. *)
Definition newline : string := String "010"%char EmptyString.
Definition blank_line : string := newline +:+ newline.

(** A chat message is a dict [{"role": ..., "content": ...}]. *)
Abbreviation Msg := (gmap string string).

Definition message_dict (role content : string) : Msg :=
  <["role" := role]> (<["content" := content]> ∅).

(** pydantic_ai.messages: the two message classes the script builds. *)
Inductive Message : Type :=
| UserPrompt (content : string)
| ModelTextResponse (content : string).

#[global] Instance Message_eq_dec : EqDecision Message.
Proof. solve_decision. Defined.

(** ** Data classes *)

Record SearchDataclass : Type := { max_results : Z; search_todays_date : string }.

Record ToolkitInfo : Type := { pdf_content : string; source : string }.

Record Deps : Type := { todays_date : string }.

Record ResearchResult : Type := {
  research_title : string;
  research_main : string;
  research_bullets : string
}.

#[global] Instance Deps_eq_dec : EqDecision Deps.
Proof. solve_decision. Defined.

#[global] Instance ResearchResult_eq_dec : EqDecision ResearchResult.
Proof. solve_decision. Defined.

(** ** The world: session state and the trace of outside calls *)

Inductive Event : Type :=
| st_title (text : string)
| st_chat_message (role : string)
| st_markdown (text : string)
| st_chat_input (label : string)
| st_empty
| st_spinner (text : string)
| placeholder_markdown (text : string)
| placeholder_error (text : string)
| time_sleep (milliseconds : Z)
| print (text : string)
| search_agent_run (prompt : string) (deps : Deps) (message_history : list Message)
| get_search_context (query : string) (max_results : Z)
| logfire_configure
| tavily_client_init (api_key : string)
| agent_init (model : string).

#[global] Instance Event_eq_dec : EqDecision Event.
Proof. solve_decision. Defined.

Record World : Type := {
  session_state : gmap string (list Msg);
  trace : list Event
}.

(** ** The monad: state over [World], exceptions as a left result *)

Definition M (A : Type) : Type := World → (Exception + A) * World.

#[global] Instance M_ret : MRet M := λ A a w, (inr a, w).

#[global] Instance M_bind : MBind M := λ A B f m w,
  match m w with
  | (inr a, w') => f a w'
  | (inl e, w') => (inl e, w')
  end.

Definition raise {A} (e : Exception) : M A := λ w, (inl e, w).

(** [try: body / except Exception as e: handler e]: the handler takes what
    is an instance of [Exception]; anything else goes on to the caller. *)
Definition try_except {A} (body : M A) (handler : Exception → M A) : M A := λ w,
  match body w with
  | (inr a, w') => (inr a, w')
  | (inl e, w') => if is_Exception e then handler e w' else (inl e, w')
  end.

Definition emit (ev : Event) : M unit := λ w,
  (inr tt, {| session_state := session_state w; trace := trace w ++ [ev] |}).

(** Result of a call to a collaborator that may raise. *)
Definition outcome {A} (r : Exception + A) : M A := λ w, (r, w).

(** [d[key]] on a message dict *)
Definition getitem (d : Msg) (key : string) : M string :=
  match d !! key with
  | Some v => mret v
  | None => raise (KeyError key)
  end.

(** The message of Streamlit's [AttributeError] for a name that the session
    state does not hold. *)
Definition missing_attribute (name : string) : string :=
  "st.session_state has no attribute " +:+ String double_quote name
    +:+ String double_quote ". Did you forget to initialize it? More info: "
    +:+ "https://docs.streamlit.io/develop/concepts/architecture/session-state#initialization".

(** [st.session_state.messages] *)
Definition session_messages : M (list Msg) := λ w,
  match session_state w !! "messages" with
  | Some l => (inr l, w)
  | None => (inl (AttributeError (missing_attribute "messages")), w)
  end.

(** [for x in l: body x] *)
Fixpoint for_each {A} (l : list A) (body : A → M unit) : M unit :=
  match l with
  | [] => mret tt
  | x :: l' => body x ;; for_each l' body
  end.

(** ** Streamlit UI helpers of demo.py *)

Definition initialize_chat : M unit := λ w,
  if decide ("messages" ∈ dom (session_state w)) then (inr tt, w)
  else (inr tt, {| session_state := <["messages" := []]> (session_state w);
                   trace := trace w |}).

Definition display_chat_history : M unit :=
  messages ← session_messages;
  for_each messages (λ message,
    role ← getitem message "role";
    emit (st_chat_message role) ;;
    content ← getitem message "content";
    emit (st_markdown content)).

Fixpoint get_message_history_loop (messages : list Msg) (message_history : list Message)
  : M (list Message) :=
  match messages with
  | [] => mret message_history
  | msg :: rest =>
      role ← getitem msg "role";
      if decide (role = "user") then
        content ← getitem msg "content";
        get_message_history_loop rest (message_history ++ [UserPrompt content])
      else if decide (role = "assistant") then
        content ← getitem msg "content";
        get_message_history_loop rest (message_history ++ [ModelTextResponse content])
      else get_message_history_loop rest message_history
  end.

Definition get_message_history : M (list Message) :=
  messages ← session_messages;
  get_message_history_loop messages [].

(** [st.session_state.messages.extend(new)] *)
Definition session_messages_extend (new : list Msg) : M unit := λ w,
  match session_state w !! "messages" with
  | Some l => (inr tt, {| session_state := <["messages" := l ++ new]> (session_state w);
                          trace := trace w |})
  | None => (inl (AttributeError (missing_attribute "messages")), w)
  end.

(** ** main *)

Section Main.

(** [asyncio.run(search_agent.run(prompt, deps=..., message_history=...))]:
    what the agent run returns ([result.data]) or raises. *)
Variable agent_run : string → Deps → list Message → Exception + ResearchResult.

(** [datetime.date.today().strftime("%Y-%m-%d")] *)
Variable today : string.

Definition response_parts (data : ResearchResult) : list string :=
  [research_title data; blank_line; research_main data; blank_line; research_bullets data].

(** The streaming loop over [response_parts]; returns [full_response].
    [time.sleep(0.05)] is recorded in milliseconds. *)
Fixpoint stream_parts (parts : list string) (full_response : string) : M string :=
  match parts with
  | [] => mret full_response
  | part :: rest =>
      let full_response := full_response +:+ part in
      emit (placeholder_markdown full_response) ;;
      emit (time_sleep 50) ;;
      stream_parts rest full_response
  end.

(** The body of the [try] block (lines 138-168). *)
Definition research (prompt : string) : M unit :=
  emit (st_spinner "Researching... 🔍") ;;
  let deps := {| todays_date := today |} in
  message_history ← get_message_history;
  emit (search_agent_run prompt deps message_history) ;;
  data ← outcome (agent_run prompt deps message_history);
  full_response ← stream_parts (response_parts data) "";
  session_messages_extend
    [message_dict "user" prompt; message_dict "assistant" full_response].

(** The [except Exception as e] handler. *)
Definition on_error (e : Exception) : M unit :=
  emit (placeholder_error ("An error occurred: " +:+ str e)).

(** Lines 130-135: the user bubble and the assistant placeholder. *)
Definition open_turn (prompt : string) : M unit :=
  emit (st_chat_message "user") ;;
  emit (st_markdown prompt) ;;
  emit (st_chat_message "assistant") ;;
  emit st_empty ;;
  emit (placeholder_markdown "Starting research...").

(** [main()]; [chat_input] is what [st.chat_input] returns on this script
    run ([None] or the submitted text; the walrus test skips an empty one). *)
Definition main (chat_input : option string) : M unit :=
  emit (st_title "Research Assistant") ;;
  initialize_chat ;;
  display_chat_history ;;
  emit (st_chat_input "What would you like to research?") ;;
  match chat_input with
  | Some prompt =>
      if decide (prompt = "") then mret tt
      else open_turn prompt ;; try_except (research prompt) on_error
  | None => mret tt
  end.

End Main.

(** ** Structured output: the [ResearchResult] schema

    [ResearchResult] is a pydantic [BaseModel] with three required [str]
    fields and no validator.  A payload is the dict the model sends as its
    final answer. *)

Inductive PyVal : Type :=
| py_none
| py_bool (b : bool)
| py_int (z : Z)
| py_str (s : string)
| py_list (n : nat).

Inductive FieldError : Type :=
| missing (field : string)
| string_type (field : string).

Definition validate_str (payload : gmap string PyVal) (field : string) : FieldError + string :=
  match payload !! field with
  | Some (py_str s) => inr s
  | Some _ => inl (string_type field)
  | None => inl (missing field)
  end.

Definition field_errors {A} (r : FieldError + A) : list FieldError :=
  match r with
  | inl e => [e]
  | inr _ => []
  end.

Definition ResearchResult_validate (payload : gmap string PyVal)
  : list FieldError + ResearchResult :=
  let title := validate_str payload "research_title" in
  let body := validate_str payload "research_main" in
  let bullets := validate_str payload "research_bullets" in
  match title, body, bullets with
  | inr t, inr m, inr b =>
      inr {| research_title := t; research_main := m; research_bullets := b |}
  | _, _, _ => inl (field_errors title ++ field_errors body ++ field_errors bullets)
  end.

(** ** Agent tools *)

Record RunContext (D : Type) : Type := { deps : D }.

Section Tools.

(** The provider's answer is returned as it comes, so its type is left open. *)
Context {Response : Type}.

(** [tavily_client.get_search_context(query=..., max_results=...)] *)
Variable tavily_get_search_context : string → Z → Exception + Response.

Definition get_search (ctx : RunContext SearchDataclass)
    (query : string) (query_number : Z) : M Response :=
  emit (print ("Search query " +:+ pretty query_number +:+ ": " +:+ query)) ;;
  emit (get_search_context query 3) ;;
  outcome (tavily_get_search_context query 3).

(** [SimpleDirectoryReader(dir).load_data()], [VectorStoreIndex.from_documents],
    [index.as_query_engine().query(q)] and [str(response)]. *)
Context {Documents Index : Type}.
Variable load_data : string → Exception + Documents.
Variable from_documents : Documents → Exception + Index.
Variable query_engine_query : Index → string → Exception + Response.
Variable response_str : Response → string.

Definition add_toolkit_information (ctx : RunContext ToolkitInfo)
    (query : string) : M Response :=
  documents ← outcome (load_data "custom_data");
  index ← outcome (from_documents documents);
  response ← outcome (query_engine_query index query);
  emit (print (response_str response)) ;;
  mret response.

End Tools.

(** The signatures of the two tool functions, as declared. *)
Inductive Annotation : Type :=
| ann_str
| ann_int
| ann_dict_str_Any
| ann_RunContext (deps_type : string).

Record FunctionDef : Type := {
  def_name : string;
  def_params : list (string * Annotation);
  def_returns : Annotation
}.

Definition add_toolkit_information_def : FunctionDef :=
  {| def_name := "add_toolkit_information";
     def_params := [("ctx", ann_RunContext "ToolkitInfo"); ("query", ann_str)];
     def_returns := ann_dict_str_Any |}.

Definition get_search_def : FunctionDef :=
  {| def_name := "get_search";
     def_params := [("ctx", ann_RunContext "SearchDataclass"); ("query", ann_str);
                    ("query_number", ann_int)];
     def_returns := ann_dict_str_Any |}.

(** What the agent shows the model of a tool: its name and the schema of its
    arguments. *)
Inductive JsonType : Type :=
| json_string
| json_integer
| json_object.

Definition json_type (a : Annotation) : JsonType :=
  match a with
  | ann_str => json_string
  | ann_int => json_integer
  | ann_dict_str_Any | ann_RunContext _ => json_object
  end.

Record ToolDefinition : Type := {
  tool_name : string;
  tool_parameters : list (string * JsonType)
}.

(** The tool made of a function that takes the run context: it goes by the
    function's own name, and its first parameter, the context, is not part of
    the schema. *)
Definition agent_tool (f : FunctionDef) : ToolDefinition :=
  {| tool_name := def_name f;
     tool_parameters := prod_map id json_type <$> tail (def_params f) |}.

#[global] Instance Annotation_eq_dec : EqDecision Annotation.
Proof. solve_decision. Defined.

#[global] Instance JsonType_eq_dec : EqDecision JsonType.
Proof. solve_decision. Defined.

#[global] Instance ToolDefinition_eq_dec : EqDecision ToolDefinition.
Proof. solve_decision. Defined.

(** An agent: its settings and the function tools registered so far.  The
    result type is [None] for plain text and the fields of the model class
    otherwise. *)
Record Agent : Type := {
  model : string;
  deps_type : string;
  result_type : option (list (string * Annotation));
  retries : Z;
  function_tools : list ToolDefinition
}.

(** [Agent(model, deps_type=..., result_type=..., retries=...)]: no function
    tool yet. *)
Definition Agent_new (model deps_type : string)
    (result_type : option (list (string * Annotation))) (retries : Z) : Agent :=
  {| model := model; deps_type := deps_type; result_type := result_type;
     retries := retries; function_tools := [] |}.

(** [@agent.tool] above a function definition: one more function tool, after
    those already registered. *)
Definition register_tool (f : FunctionDef) (a : Agent) : Agent :=
  {| model := model a; deps_type := deps_type a; result_type := result_type a;
     retries := retries a;
     function_tools := function_tools a ++ [agent_tool f] |}.

(** With a structured result type the agent also offers the model its result
    tool, named final_result, whose arguments are the fields of the result. *)
Definition result_tools (a : Agent) : list ToolDefinition :=
  match result_type a with
  | Some fields => [ {| tool_name := "final_result";
                        tool_parameters := prod_map id json_type <$> fields |} ]
  | None => []
  end.

(** The tools the model is shown. *)
Definition exposed_tools (a : Agent) : list ToolDefinition :=
  function_tools a ++ result_tools a.

(** The fields of [ResearchResult]. *)
Definition ResearchResult_fields : list (string * Annotation) :=
  [("research_title", ann_str); ("research_main", ann_str);
   ("research_bullets", ann_str)].

(** [search_agent = Agent('openai:gpt-4', deps_type=Deps,
    result_type=ResearchResult, system_prompt=SYSTEM_PROMPT, retries=5)]
    followed by the two decorated functions, in the order of the file. *)
Definition search_agent : Agent :=
  register_tool get_search_def
    (register_tool add_toolkit_information_def
       (Agent_new "openai:gpt-4" "Deps" (Some ResearchResult_fields) 5)).

(** ** The module body *)

(** [load_dotenv()]: the variables read from the .env file are added to the
    process environment; a variable that is already set keeps its value.
    [dotenv_values] is what python-dotenv reads from the file, references to
    other variables already expanded. *)
Definition load_dotenv (dotenv_values environ : gmap string string)
  : gmap string string :=
  environ ∪ dotenv_values.

(** [os.environ[key]] *)
Definition environ_getitem (environ : gmap string string) (key : string)
  : Exception + string :=
  match environ !! key with
  | Some v => inr v
  | None => inl (KeyError key)
  end.

Section Startup.

(** [logfire.configure()], which reads its settings from the environment, the
    constructor [AsyncTavilyClient(api_key=...)] and the construction of the
    agent [Agent('openai:gpt-4', ...)]: each returns or raises. *)
Variable logfire_configured : gmap string string → Exception + unit.
Context {Client : Type}.
Variable AsyncTavilyClient : string → Exception + Client.
Variable Agent_init : gmap string string → Exception + unit.

(** The module-level statements, in the order of the file: [load_dotenv()],
    [logfire.configure()], the lookup of the credential and the client built
    with it, then the agent.  The class and function definitions between them
    raise nothing. *)
Definition module_init (dotenv_values environ : gmap string string) : M Client :=
  let environ := load_dotenv dotenv_values environ in
  emit logfire_configure ;;
  outcome (logfire_configured environ) ;;
  api_key ← outcome (environ_getitem environ "TAVILY_API_KEY");
  emit (tavily_client_init api_key) ;;
  tavily_client ← outcome (AsyncTavilyClient api_key);
  emit (agent_init "openai:gpt-4") ;;
  outcome (Agent_init environ) ;;
  mret tavily_client.

(** Running the script: the module body, then [main()] under the
    [__name__ == "__main__"] guard. *)
Definition script (dotenv_values environ : gmap string string)
    (agent_run : string → Deps → list Message → Exception + ResearchResult)
    (today : string) (chat_input : option string) : M unit :=
  module_init dotenv_values environ ;;
  main agent_run today chat_input.

End Startup.

(** ** Vocabulary of the statements *)

(** A computation that never writes the session state, whatever it returns. *)
Definition keeps_session {A} (m : M A) : Prop :=
  ∀ w r w', m w = (r, w') → session_state w' = session_state w.

(** A computation that leaves the session state alone when it raises. *)
Definition keeps_session_on_error {A} (m : M A) : Prop :=
  ∀ w e w', m w = (inl e, w') → session_state w' = session_state w.

(** The session's message list, once [initialize_chat] has run. *)
Definition initialized (s : gmap string (list Msg)) : gmap string (list Msg) :=
  if decide ("messages" ∈ dom s) then s else <["messages" := []]> s.

Definition transcript (w : World) : list Msg :=
  default [] (session_state w !! "messages").

(** A message dict with both keys, and what they hold. *)
Definition has_keys (msg : Msg) : Prop :=
  is_Some (msg !! "role") ∧ is_Some (msg !! "content").

Definition role_of (msg : Msg) : string := default "" (msg !! "role").
Definition content_of (msg : Msg) : string := default "" (msg !! "content").

#[global] Instance has_keys_dec msg : Decision (has_keys msg).
Proof. unfold has_keys. apply _. Defined.

(** The two roles of a chat turn. *)
Definition chat_role (msg : Msg) : Prop :=
  role_of msg = "user" ∨ role_of msg = "assistant".

#[global] Instance chat_role_dec msg : Decision (chat_role msg).
Proof. unfold chat_role. apply _. Defined.

(** A stored turn: both keys, and one of the two roles. *)
Definition is_turn (msg : Msg) : Prop := has_keys msg ∧ chat_role msg.

#[global] Instance is_turn_dec msg : Decision (is_turn msg).
Proof. unfold is_turn. apply _. Defined.

(** What [get_message_history] reads of a message: its role, and its content
    when the role is one of the two. *)
Definition history_ready (msg : Msg) : Prop :=
  is_Some (msg !! "role") ∧ (chat_role msg → is_Some (msg !! "content")).

Definition message_of (msg : Msg) : Message :=
  if decide (role_of msg = "user") then UserPrompt (content_of msg)
  else ModelTextResponse (content_of msg).

Definition message_role (m : Message) : string :=
  match m with
  | UserPrompt _ => "user"
  | ModelTextResponse _ => "assistant"
  end.

Definition message_content (m : Message) : string :=
  match m with
  | UserPrompt content | ModelTextResponse content => content
  end.

(** What [display_chat_history] draws for a list of messages. *)
Definition display_events (messages : list Msg) : list Event :=
  flat_map (λ msg, [st_chat_message (role_of msg); st_markdown (content_of msg)]) messages.

(** The successive values of [full_response] in the streaming loop. *)
Fixpoint reveals (parts : list string) (full_response : string) : list string :=
  match parts with
  | [] => []
  | part :: rest => (full_response +:+ part) :: reveals rest (full_response +:+ part)
  end.

Definition stream_events (parts : list string) (full_response : string) : list Event :=
  flat_map (λ text, [placeholder_markdown text; time_sleep 50]) (reveals parts full_response).

Definition full_response_of (data : ResearchResult) : string :=
  research_title data +:+ blank_line +:+ research_main data +:+ blank_line
    +:+ research_bullets data.

(** What the [try] statement of [main] draws and returns when its body
    raises [e]: the error message for an instance of [Exception], and [e]
    itself, raised again, otherwise. *)
Definition failure_events (e : Exception) : list Event :=
  if is_Exception e then [placeholder_error ("An error occurred: " +:+ str e)]
  else [].

Definition failure_result (e : Exception) : Exception + unit :=
  if is_Exception e then inr tt else inl e.

(** Projections of a trace. *)
Definition placeholder_texts (tr : list Event) : list string :=
  omap (λ ev, match ev with placeholder_markdown text => Some text | _ => None end) tr.

Definition placeholder_errors (tr : list Event) : list string :=
  omap (λ ev, match ev with placeholder_error text => Some text | _ => None end) tr.

Definition agent_calls (tr : list Event) : list (string * Deps * list Message) :=
  omap (λ ev, match ev with
              | search_agent_run prompt deps history => Some (prompt, deps, history)
              | _ => None
              end) tr.

Definition search_requests (tr : list Event) : list (string * Z) :=
  omap (λ ev, match ev with
              | get_search_context query n => Some (query, n)
              | _ => None
              end) tr.

(** The statements of [main] that precede the [try] block, for a prompt. *)
Definition before_try (prompt : string) : M unit :=
  emit (st_title "Research Assistant") ;;
  initialize_chat ;;
  display_chat_history ;;
  emit (st_chat_input "What would you like to research?") ;;
  open_turn prompt.

(** The trace [before_try] adds, when the stored messages have their keys. *)
Definition before_try_events (messages : list Msg) (prompt : string) : list Event :=
  [st_title "Research Assistant"] ++ display_events messages ++
  [st_chat_input "What would you like to research?";
   st_chat_message "user"; st_markdown prompt; st_chat_message "assistant";
   st_empty; placeholder_markdown "Starting research..."].

(** ** The contract as the specification words it *)

(** Tool names and argument shapes listed in the specification's external
    interfaces, to be compared with what [search_agent] shows the model. *)
Definition spec_tool_contract : list (string * list (string * JsonType)) :=
  [("knowledge_lookup", [("query", json_string)]);
   ("web_search", [("query", json_string); ("query_number", json_integer)])].

Definition exposed_contract (a : Agent) : list (string * list (string * JsonType)) :=
  (λ t, (tool_name t, tool_parameters t)) <$> exposed_tools a.

(** The shape of a tool's result: the fields it is said to have, if any. *)
Inductive ResultShape : Type :=
| shape_dict_str_Any
| shape_scalar
| shape_fields (names : list string).

(** The result shapes listed in the specification, in the same order. *)
Definition spec_result_shapes : list ResultShape :=
  [shape_fields ["content"; "source"]; shape_fields ["results"]].

(** The result shape a return annotation declares. *)
Definition declared_shape (a : Annotation) : ResultShape :=
  match a with
  | ann_dict_str_Any => shape_dict_str_Any
  | ann_str | ann_int | ann_RunContext _ => shape_scalar
  end.

(** ** Sample inputs *)

Definition empty_world : World := {| session_state := ∅; trace := [] |}.

Definition one_pair : list Msg :=
  [message_dict "user" "What is Rocq?"; message_dict "assistant" "A proof assistant."].

Definition one_pair_world : World :=
  {| session_state := {["messages" := one_pair]}; trace := [] |}.

(** A list with a message of a third role, and one that has a role only. *)
Definition mixed_messages : list Msg :=
  [message_dict "user" "first"; message_dict "system" "be brief";
   {["role" := "tool"]}; message_dict "assistant" "second"].

Definition mixed_world : World :=
  {| session_state := {["messages" := mixed_messages]}; trace := [] |}.

Definition failing_agent (prompt : string) (deps : Deps) (history : list Message)
  : Exception + ResearchResult :=
  inl (Raised "RuntimeError" "model unavailable").

(** An agent run interrupted from the keyboard. *)
Definition interrupted_agent (prompt : string) (deps : Deps) (history : list Message)
  : Exception + ResearchResult :=
  inl (BaseRaised "KeyboardInterrupt" "").

(** Startup collaborators: Logfire without its settings, and constructors
    that return. *)
Definition logfire_unconfigured (environ : gmap string string) : Exception + unit :=
  inl (Raised "LogfireConfigError" "No Logfire project credentials found.").

Definition tavily_ready (api_key : string) : Exception + string :=
  inr api_key.

Definition agent_ready (environ : gmap string string) : Exception + unit :=
  inr tt.

Definition key_in_environ : gmap string string :=
  {["TAVILY_API_KEY" := "tvly-process"]}.

Definition paris : ResearchResult :=
  {| research_title := "# France";
     research_main := "The capital of France is Paris.";
     research_bullets := "- Paris" |}.

Definition paris_agent (prompt : string) (deps : Deps) (history : list Message)
  : Exception + ResearchResult :=
  inr paris.

Definition empty_payload : gmap string PyVal :=
  <["research_title" := py_str ""]>
    (<["research_main" := py_str ""]> (<["research_bullets" := py_str ""]> ∅)).

Definition empty_result : ResearchResult :=
  {| research_title := ""; research_main := ""; research_bullets := "" |}.

(** An agent whose model answers with [empty_payload]. *)
Definition empty_agent (prompt : string) (deps : Deps) (history : list Message)
  : Exception + ResearchResult :=
  match ResearchResult_validate empty_payload with
  | inr data => inr data
  | inl _ => inl (Raised "ValidationError" "invalid payload")
  end.

(** A provider that answers with four results whatever it is asked for. *)
Definition four_results : list (string * string) :=
  [("a.example", "one"); ("b.example", "two");
   ("c.example", "three"); ("d.example", "four")].

Definition four_results_provider (query : string) (max_results : Z)
  : Exception + list (string * string) :=
  inr four_results.

Definition search_ctx : RunContext SearchDataclass :=
  {| deps := {| max_results := 3; search_todays_date := "2024-05-01" |} |}.

(** ** Vocabulary of the further properties *)

(** The key a message dict lacks, in the order the loops read them, and the
    chat bubble [display_chat_history] has opened by the time it finds out. *)
Definition missing_key (msg : Msg) : string :=
  match msg !! "role" with
  | None => "role"
  | Some _ => "content"
  end.

Definition opened_bubble (msg : Msg) : list Event :=
  match msg !! "role" with
  | None => []
  | Some role => [st_chat_message role]
  end.


(** What a script run that was given [prompt] adds to the message list. *)
Definition stored_pair (prompt : string) (r : Exception + ResearchResult) : list Msg :=
  match r with
  | inr data => [message_dict "user" prompt;
                 message_dict "assistant" (full_response_of data)]
  | inl _ => []
  end.


Definition required_fields : list string :=
  ["research_title"; "research_main"; "research_bullets"].

(** A stored list whose second message has no content. *)
Definition broken_messages : list Msg :=
  [message_dict "user" "first"; {["role" := "assistant"]}; message_dict "user" "later"].

Definition broken_world : World :=
  {| session_state := {["messages" := broken_messages]}; trace := [] |}.

(** * Properties *)

(** ** Strings *)

Lemma append_cons (c : ascii) (s1 s2 : string) :
  String c s1 +:+ s2 = String c (s1 +:+ s2).
Proof. reflexivity. Qed.

Lemma append_empty_r (s : string) : s +:+ "" = s.
Proof.
  induction s as [|c s IH]; [done |].
  by rewrite append_cons, IH.
Qed.

Lemma append_assoc (s1 s2 s3 : string) : (s1 +:+ s2) +:+ s3 = s1 +:+ s2 +:+ s3.
Proof.
  induction s1 as [|c s1 IH]; [done |].
  by rewrite !append_cons, IH.
Qed.

Lemma length_append (s1 s2 : string) :
  String.length (s1 +:+ s2) = (String.length s1 + String.length s2)%nat.
Proof.
  induction s1 as [|c s1 IH]; [done |].
  rewrite append_cons. simpl. by rewrite IH.
Qed.

Lemma prefix_append (s1 s2 : string) : String.prefix s1 (s1 +:+ s2) = true.
Proof.
  induction s1 as [|c s1 IH].
  - by destruct s2.
  - rewrite append_cons. simpl. destruct (ascii_dec c c); [done | congruence].
Qed.

(** ** The monad *)

Lemma bind_inr {A B} (m : M A) (f : A → M B) w a w' :
  m w = (inr a, w') → (m ≫= f) w = f a w'.
Proof. intros H. unfold mbind, M_bind. by rewrite H. Qed.

Lemma bind_inl {A B} (m : M A) (f : A → M B) w e w' :
  m w = (inl e, w') → (m ≫= f) w = (inl e, w').
Proof. intros H. unfold mbind, M_bind. by rewrite H. Qed.

Lemma bind_emit {B} (ev : Event) (f : unit → M B) w :
  (emit ev ≫= f) w
  = f tt {| session_state := session_state w; trace := trace w ++ [ev] |}.
Proof. done. Qed.

Lemma keeps_ret {A} (a : A) : keeps_session (mret a : M A).
Proof. intros w r w' [= <- <-]. done. Qed.

Lemma keeps_raise {A} (e : Exception) : keeps_session (raise e : M A).
Proof. intros w r w' [= <- <-]. done. Qed.

Lemma keeps_emit (ev : Event) : keeps_session (emit ev).
Proof. intros w r w' [= <- <-]. done. Qed.

Lemma keeps_outcome {A} (r : Exception + A) : keeps_session (outcome r).
Proof. intros w r' w' [= <- <-]. done. Qed.

Lemma keeps_getitem (d : Msg) (key : string) : keeps_session (getitem d key).
Proof. unfold getitem. destruct (d !! key); [apply keeps_ret | apply keeps_raise]. Qed.

Lemma keeps_session_messages : keeps_session session_messages.
Proof.
  intros w r w'. unfold session_messages.
  destruct (session_state w !! "messages"); intros [= <- <-]; done.
Qed.

Lemma keeps_bind {A B} (m : M A) (f : A → M B) :
  keeps_session m → (∀ a, keeps_session (f a)) → keeps_session (m ≫= f).
Proof.
  intros Hm Hf w r w'. unfold mbind, M_bind.
  destruct (m w) as [[e|a] w1] eqn:E.
  - intros [= <- <-]. by eapply Hm.
  - intros H. rewrite (Hf a _ _ _ H). by eapply Hm.
Qed.

Lemma keeps_for_each {A} (l : list A) (body : A → M unit) :
  (∀ x, keeps_session (body x)) → keeps_session (for_each l body).
Proof.
  intros Hb. induction l as [|x l IH]; simpl.
  - apply keeps_ret.
  - apply keeps_bind; [apply Hb | intros _; apply IH].
Qed.

Lemma keeps_on_error_bind {A B} (m : M A) (f : A → M B) :
  keeps_session m → (∀ a, keeps_session_on_error (f a)) →
  keeps_session_on_error (m ≫= f).
Proof.
  intros Hm Hf w e w'. unfold mbind, M_bind.
  destruct (m w) as [[e1|a] w1] eqn:E.
  - intros [= <- <-]. by eapply Hm.
  - intros H. rewrite (Hf a _ _ _ H). by eapply Hm.
Qed.

Lemma keeps_session_weaken {A} (m : M A) : keeps_session m → keeps_session_on_error m.
Proof. intros H w e w' E. by eapply H. Qed.

Lemma extend_keeps_on_error (new : list Msg) :
  keeps_session_on_error (session_messages_extend new).
Proof.
  intros w e w'. unfold session_messages_extend.
  destruct (session_state w !! "messages"); intros [= <- <-]; done.
Qed.

Create HintDb keeps.
#[global] Hint Resolve keeps_ret keeps_raise keeps_emit keeps_outcome keeps_getitem
  keeps_session_messages : keeps.

Ltac keeps_step :=
  first [ apply keeps_bind; [| intro]
        | apply keeps_for_each; intro
        | solve [auto with keeps] ].

Lemma keeps_display_chat_history : keeps_session display_chat_history.
Proof. unfold display_chat_history. repeat keeps_step. Qed.

Lemma keeps_get_message_history_loop messages acc :
  keeps_session (get_message_history_loop messages acc).
Proof.
  revert acc. induction messages as [|msg rest IH]; intros acc; simpl.
  - apply keeps_ret.
  - apply keeps_bind; [apply keeps_getitem | intros role].
    repeat case_decide; [| | apply IH];
      (apply keeps_bind; [apply keeps_getitem | intros content; apply IH]).
Qed.

Lemma keeps_get_message_history : keeps_session get_message_history.
Proof.
  unfold get_message_history.
  apply keeps_bind; [apply keeps_session_messages |].
  intros l. apply keeps_get_message_history_loop.
Qed.

Lemma keeps_stream_parts parts acc : keeps_session (stream_parts parts acc).
Proof.
  revert acc. induction parts as [|part rest IH]; intros acc; simpl.
  - apply keeps_ret.
  - repeat keeps_step.
Qed.

Lemma keeps_open_turn prompt : keeps_session (open_turn prompt).
Proof. unfold open_turn. repeat keeps_step. Qed.

(** The [try] body writes the session state only by its last statement: if
    it raises, at whatever point, the session state is as it found it. *)
Lemma research_keeps_on_error agent_run today prompt :
  keeps_session_on_error (research agent_run today prompt).
Proof.
  unfold research.
  apply keeps_on_error_bind; [apply keeps_emit | intros _].
  apply keeps_on_error_bind; [apply keeps_get_message_history | intros history].
  apply keeps_on_error_bind; [apply keeps_emit | intros _].
  apply keeps_on_error_bind; [apply keeps_outcome | intros data].
  apply keeps_on_error_bind; [apply keeps_stream_parts | intros full].
  apply extend_keeps_on_error.
Qed.

(** ** What each helper computes *)

Lemma world_eta (w : World) :
  {| session_state := session_state w; trace := trace w |} = w.
Proof. by destruct w. Qed.

Lemma initialize_chat_run (w : World) :
  initialize_chat w
  = (inr tt, {| session_state := initialized (session_state w); trace := trace w |}).
Proof.
  unfold initialize_chat, initialized.
  case_decide; [by rewrite world_eta | done].
Qed.

Lemma initialized_lookup (s : gmap string (list Msg)) :
  initialized s !! "messages" = Some (default [] (s !! "messages")).
Proof.
  unfold initialized. case_decide as H.
  - apply elem_of_dom in H as [l Hl]. by rewrite Hl.
  - apply not_elem_of_dom in H. rewrite H. apply lookup_insert_eq.
Qed.

Lemma initialized_present (s : gmap string (list Msg)) (l : list Msg) :
  s !! "messages" = Some l → initialized s = s.
Proof.
  intros H. unfold initialized. rewrite decide_True; [done |].
  apply elem_of_dom. by exists l.
Qed.

Lemma initialized_absent (s : gmap string (list Msg)) :
  s !! "messages" = None → initialized s = <["messages" := []]> s.
Proof.
  intros H. unfold initialized. rewrite decide_False; [done |].
  by apply not_elem_of_dom.
Qed.

Lemma initialized_idemp (s : gmap string (list Msg)) :
  initialized (initialized s) = initialized s.
Proof. eapply initialized_present, initialized_lookup. Qed.

Lemma getitem_role msg w :
  is_Some (msg !! "role") → getitem msg "role" w = (inr (role_of msg), w).
Proof.
  intros [r Hr]. unfold getitem, role_of. by rewrite Hr.
Qed.

Lemma getitem_content msg w :
  is_Some (msg !! "content") → getitem msg "content" w = (inr (content_of msg), w).
Proof.
  intros [c Hc]. unfold getitem, content_of. by rewrite Hc.
Qed.

Lemma has_keys_history_ready msg : has_keys msg → history_ready msg.
Proof. intros [Hr Hc]. by split. Qed.

Lemma display_loop_run (messages : list Msg) (w : World) :
  Forall has_keys messages →
  for_each messages (λ message,
    role ← getitem message "role";
    emit (st_chat_message role) ;;
    content ← getitem message "content";
    emit (st_markdown content)) w
  = (inr tt, {| session_state := session_state w;
                trace := trace w ++ display_events messages |}).
Proof.
  intros Hall. revert w.
  induction Hall as [|msg rest Hmsg _ IH]; intros w.
  - simpl. unfold display_events. simpl. by rewrite app_nil_r, world_eta.
  - cbn [for_each].
    destruct Hmsg as [Hr Hc].
    erewrite bind_inr; [| erewrite bind_inr by (by apply getitem_role);
                          rewrite bind_emit;
                          erewrite bind_inr by (by apply getitem_content);
                          reflexivity].
    rewrite IH. cbn [session_state trace].
    unfold display_events. cbn [flat_map]. by rewrite <- !app_assoc.
Qed.

Lemma display_chat_history_run (w : World) (messages : list Msg) :
  session_state w !! "messages" = Some messages →
  Forall has_keys messages →
  display_chat_history w
  = (inr tt, {| session_state := session_state w;
                trace := trace w ++ display_events messages |}).
Proof.
  intros Hm Hall. unfold display_chat_history.
  erewrite bind_inr; [| unfold session_messages; by rewrite Hm].
  by apply display_loop_run.
Qed.

Lemma message_of_user msg :
  role_of msg = "user" → message_of msg = UserPrompt (content_of msg).
Proof. intros H. unfold message_of. by rewrite decide_True. Qed.

Lemma message_of_assistant msg :
  role_of msg = "assistant" → message_of msg = ModelTextResponse (content_of msg).
Proof. intros H. unfold message_of. rewrite decide_False; [done | by rewrite H]. Qed.

Lemma get_message_history_loop_run (messages : list Msg) (acc : list Message) (w : World) :
  Forall history_ready messages →
  get_message_history_loop messages acc w
  = (inr (acc ++ (message_of <$> filter chat_role messages)), w).
Proof.
  intros Hall. revert acc.
  induction Hall as [|msg rest [Hr Hc] _ IH]; intros acc.
  - simpl. by rewrite app_nil_r.
  - cbn [get_message_history_loop].
    erewrite bind_inr by (by apply getitem_role).
    rewrite filter_cons.
    destruct (decide (role_of msg = "user")) as [Hu|Hu].
    + assert (chat_role msg) as Hchat by (by left).
      erewrite bind_inr by (by apply getitem_content, Hc).
      rewrite IH, decide_True by done.
      by rewrite fmap_cons, message_of_user, <- app_assoc.
    + destruct (decide (role_of msg = "assistant")) as [Ha|Ha].
      * assert (chat_role msg) as Hchat by (by right).
        erewrite bind_inr by (by apply getitem_content, Hc).
        rewrite IH, decide_True by done.
        by rewrite fmap_cons, message_of_assistant, <- app_assoc.
      * rewrite IH, decide_False; [done |]. by intros [?|?].
Qed.

Lemma get_message_history_run (w : World) (messages : list Msg) :
  session_state w !! "messages" = Some messages →
  Forall history_ready messages →
  get_message_history w = (inr (message_of <$> filter chat_role messages), w).
Proof.
  intros Hm Hall. unfold get_message_history.
  erewrite bind_inr; [| unfold session_messages; by rewrite Hm].
  by rewrite get_message_history_loop_run.
Qed.

Lemma stream_parts_run (parts : list string) (acc : string) (w : World) :
  stream_parts parts acc w
  = (inr (fold_left String.append parts acc),
     {| session_state := session_state w;
        trace := trace w ++ stream_events parts acc |}).
Proof.
  revert acc w. induction parts as [|part rest IH]; intros acc w.
  - simpl. unfold stream_events. simpl. by rewrite app_nil_r, world_eta.
  - cbn [stream_parts fold_left]. rewrite !bind_emit, IH.
    cbn [session_state trace]. unfold stream_events. cbn [reveals flat_map].
    by rewrite <- !app_assoc.
Qed.

Lemma full_response_fold (data : ResearchResult) :
  fold_left String.append (response_parts data) "" = full_response_of data.
Proof.
  unfold response_parts, full_response_of. cbn [fold_left].
  change ("" +:+ research_title data) with (research_title data).
  by rewrite !append_assoc.
Qed.

Lemma session_messages_extend_run (w : World) (messages new : list Msg) :
  session_state w !! "messages" = Some messages →
  session_messages_extend new w
  = (inr tt, {| session_state := <["messages" := messages ++ new]> (session_state w);
                trace := trace w |}).
Proof. intros Hm. unfold session_messages_extend. by rewrite Hm. Qed.

Lemma open_turn_run (prompt : string) (w : World) :
  open_turn prompt w
  = (inr tt, {| session_state := session_state w;
                trace := trace w ++
                  [st_chat_message "user"; st_markdown prompt;
                   st_chat_message "assistant"; st_empty;
                   placeholder_markdown "Starting research..."] |}).
Proof.
  unfold open_turn. rewrite !bind_emit. unfold emit. cbn [session_state trace].
  by rewrite <- !app_assoc.
Qed.

Lemma main_unfold agent_run today (prompt : string) (w : World) :
  prompt ≠ "" →
  main agent_run today (Some prompt) w
  = (before_try prompt ;; try_except (research agent_run today prompt) on_error) w.
Proof.
  intros Hp. unfold main, before_try. rewrite decide_False by done.
  unfold mbind, M_bind, emit.
  destruct (initialize_chat _) as [[e|[]] w1]; [done |].
  destruct (display_chat_history w1) as [[e|[]] w2]; [done |].
  by destruct (open_turn prompt _) as [[e|[]] w3].
Qed.

Lemma before_try_session (prompt : string) (w : World) r w0 :
  before_try prompt w = (r, w0) → session_state w0 = initialized (session_state w).
Proof.
  unfold before_try. rewrite bind_emit.
  erewrite bind_inr by apply initialize_chat_run.
  intros H. apply keeps_bind in H; [done | apply keeps_display_chat_history |].
  intros _. apply keeps_bind; [apply keeps_emit | intros _; apply keeps_open_turn].
Qed.

Lemma before_try_run (prompt : string) (w : World) :
  Forall has_keys (transcript w) →
  before_try prompt w
  = (inr tt, {| session_state := initialized (session_state w);
                trace := trace w ++ before_try_events (transcript w) prompt |}).
Proof.
  intros Hall. unfold before_try. rewrite bind_emit.
  erewrite bind_inr by apply initialize_chat_run.
  erewrite bind_inr;
    [| apply display_chat_history_run with (messages := transcript w);
       [apply initialized_lookup | done]].
  rewrite bind_emit, open_turn_run. cbn [session_state trace].
  unfold before_try_events. by rewrite <- !app_assoc.
Qed.

Section Research.

Variable agent_run : string → Deps → list Message → Exception + ResearchResult.
Variable today : string.

Lemma research_run (prompt : string) (w : World) (messages : list Msg) :
  session_state w !! "messages" = Some messages →
  Forall has_keys messages →
  research agent_run today prompt w
  = let deps := {| todays_date := today |} in
    let history := message_of <$> filter chat_role messages in
    let called := trace w ++ [st_spinner "Researching... 🔍";
                              search_agent_run prompt deps history] in
    match agent_run prompt deps history with
    | inr data =>
        (inr tt,
         {| session_state :=
              <["messages" := messages ++
                  [message_dict "user" prompt;
                   message_dict "assistant" (full_response_of data)]]> (session_state w);
            trace := called ++ stream_events (response_parts data) "" |})
    | inl e => (inl e, {| session_state := session_state w; trace := called |})
    end.
Proof.
  intros Hm Hall. unfold research. rewrite bind_emit.
  erewrite bind_inr
    by (eapply get_message_history_run;
        [done | by eapply Forall_impl; [| apply has_keys_history_ready]]).
  rewrite bind_emit. cbn [session_state trace]. rewrite <- app_assoc. cbn [app].
  destruct (agent_run _ _ _) as [e|data].
  - by erewrite bind_inl by reflexivity.
  - erewrite bind_inr by reflexivity.
    erewrite bind_inr by apply stream_parts_run.
    rewrite full_response_fold.
    by erewrite session_messages_extend_run by done.
Qed.

(** [main] on a prompt, when the stored messages have their keys: the
    whole result, for either outcome of the agent run. *)
Lemma main_run (prompt : string) (w : World) :
  prompt ≠ "" →
  Forall has_keys (transcript w) →
  main agent_run today (Some prompt) w
  = let deps := {| todays_date := today |} in
    let history := message_of <$> filter chat_role (transcript w) in
    let called := trace w ++ before_try_events (transcript w) prompt ++
                  [st_spinner "Researching... 🔍";
                   search_agent_run prompt deps history] in
    match agent_run prompt deps history with
    | inr data =>
        (inr tt,
         {| session_state :=
              <["messages" := transcript w ++
                  [message_dict "user" prompt;
                   message_dict "assistant" (full_response_of data)]]> (session_state w);
            trace := called ++ stream_events (response_parts data) "" |})
    | inl e =>
        (failure_result e,
         {| session_state := initialized (session_state w);
            trace := called ++ failure_events e |})
    end.
Proof.
  intros Hp Hall. rewrite main_unfold by done.
  erewrite bind_inr by (by apply before_try_run).
  unfold try_except.
  erewrite research_run; [| apply initialized_lookup | done].
  cbn [session_state trace]. cbn zeta.
  destruct (agent_run _ _ _) as [e|data].
  - unfold failure_result, failure_events, on_error, emit.
    destruct (is_Exception e); cbn [session_state trace];
      by rewrite <- ?app_assoc, ?app_nil_r.
  - f_equal. f_equal; [| by rewrite <- !app_assoc].
    unfold initialized. case_decide; [done | by rewrite insert_insert_eq].
Qed.

End Research.

(** ** Projections of the traces *)

Lemma placeholder_texts_app tr1 tr2 :
  placeholder_texts (tr1 ++ tr2) = placeholder_texts tr1 ++ placeholder_texts tr2.
Proof. apply omap_app. Qed.

Lemma placeholder_errors_app tr1 tr2 :
  placeholder_errors (tr1 ++ tr2) = placeholder_errors tr1 ++ placeholder_errors tr2.
Proof. apply omap_app. Qed.

Lemma agent_calls_app tr1 tr2 :
  agent_calls (tr1 ++ tr2) = agent_calls tr1 ++ agent_calls tr2.
Proof. apply omap_app. Qed.

Lemma display_events_quiet (messages : list Msg) :
  placeholder_texts (display_events messages) = []
  ∧ placeholder_errors (display_events messages) = []
  ∧ agent_calls (display_events messages) = [].
Proof. induction messages as [|msg rest IH]; [done | apply IH]. Qed.

Lemma stream_events_texts (parts : list string) (acc : string) :
  placeholder_texts (stream_events parts acc) = reveals parts acc
  ∧ placeholder_errors (stream_events parts acc) = []
  ∧ agent_calls (stream_events parts acc) = [].
Proof.
  revert acc. induction parts as [|part rest IH]; intros acc; [done |].
  destruct (IH (acc +:+ part)) as (IH1 & IH2 & IH3).
  unfold stream_events in *. cbn [reveals flat_map app].
  unfold placeholder_texts, placeholder_errors, agent_calls in *.
  cbn [omap list_omap]. by rewrite IH1, IH2, IH3.
Qed.

Lemma failure_events_quiet (e : Exception) : agent_calls (failure_events e) = [].
Proof. unfold failure_events. by destruct (is_Exception e). Qed.

Lemma before_try_events_texts (messages : list Msg) (prompt : string) :
  placeholder_texts (before_try_events messages prompt) = ["Starting research..."]
  ∧ placeholder_errors (before_try_events messages prompt) = []
  ∧ agent_calls (before_try_events messages prompt) = [].
Proof.
  destruct (display_events_quiet messages) as (H1 & H2 & H3).
  unfold before_try_events.
  rewrite !placeholder_texts_app, !placeholder_errors_app, !agent_calls_app.
  by rewrite H1, H2, H3.
Qed.

(** Each value shown by the streaming loop is the one before it followed by
    the next part. *)
Lemma reveals_step (parts : list string) (acc : string) (i : nat) (s1 s2 : string) :
  reveals parts acc !! i = Some s1 →
  reveals parts acc !! S i = Some s2 →
  ∃ part, parts !! S i = Some part ∧ s2 = s1 +:+ part.
Proof.
  revert acc i. induction parts as [|p rest IH]; intros acc i H1 H2; [done |].
  destruct i as [|i].
  - cbn in H1. injection H1 as <-.
    destruct rest as [|q rest]; [done |].
    cbn in H2. injection H2 as <-. by exists q.
  - cbn in H1, H2. destruct (IH _ _ H1 H2) as (part & Hpart & ->). by exists part.
Qed.

Lemma fold_left_append_extends (parts : list string) (acc : string) :
  ∃ rest, fold_left String.append parts acc = acc +:+ rest.
Proof.
  revert acc. induction parts as [|part parts IH]; intros acc.
  - exists "". cbn. by rewrite append_empty_r.
  - cbn [fold_left]. destruct (IH (acc +:+ part)) as [rest ->].
    exists (part +:+ rest). apply append_assoc.
Qed.

(** Each value shown is a prefix of the text the loop ends with. *)
Lemma reveals_prefix_of_whole (parts : list string) (acc : string) :
  Forall (λ text, String.prefix text (fold_left String.append parts acc) = true)
         (reveals parts acc).
Proof.
  revert acc. induction parts as [|part parts IH]; intros acc; [constructor |].
  cbn [reveals fold_left]. constructor; [| apply IH].
  destruct (fold_left_append_extends parts (acc +:+ part)) as [rest ->].
  apply prefix_append.
Qed.

Lemma reveals_response_parts (data : ResearchResult) :
  reveals (response_parts data) ""
  = [research_title data;
     research_title data +:+ blank_line;
     research_title data +:+ blank_line +:+ research_main data;
     research_title data +:+ blank_line +:+ research_main data +:+ blank_line;
     full_response_of data].
Proof.
  unfold response_parts, full_response_of. cbn [reveals].
  change ("" +:+ research_title data) with (research_title data).
  by rewrite !append_assoc.
Qed.


Lemma message_of_turn (msg : Msg) :
  is_turn msg →
  msg !! "role" = Some (message_role (message_of msg))
  ∧ msg !! "content" = Some (message_content (message_of msg)).
Proof.
  intros [[[r Hr] [c Hc]] Hrole]. unfold chat_role, message_of, role_of, content_of in *.
  rewrite Hr, Hc in *. cbn in *.
  case_decide; subst; [done |]. destruct Hrole as [?| ->]; done.
Qed.

(** ** The stored messages are always turns *)

Lemma message_dict_lookup (role content : string) :
  message_dict role content !! "role" = Some role
  ∧ message_dict role content !! "content" = Some content.
Proof.
  unfold message_dict. split.
  - apply lookup_insert_eq.
  - rewrite lookup_insert_ne by done. apply lookup_insert_eq.
Qed.

Lemma message_dict_is_turn (role content : string) :
  role = "user" ∨ role = "assistant" → is_turn (message_dict role content).
Proof.
  intros Hrole. destruct (message_dict_lookup role content) as [Hr Hc].
  unfold is_turn, has_keys, chat_role, role_of. rewrite Hr, Hc. eauto.
Qed.

Lemma transcript_initialized (w : World) (tr : list Event) :
  transcript {| session_state := initialized (session_state w); trace := tr |}
  = transcript w.
Proof. unfold transcript. cbn [session_state]. by rewrite initialized_lookup. Qed.

(** [main] when nothing was submitted: the page is drawn and nothing else. *)
Lemma main_idle agent_run today (chat_input : option string) (w : World) :
  chat_input = None ∨ chat_input = Some "" →
  Forall has_keys (transcript w) →
  main agent_run today chat_input w
  = (inr tt,
     {| session_state := initialized (session_state w);
        trace := trace w ++ [st_title "Research Assistant"] ++
                 display_events (transcript w) ++
                 [st_chat_input "What would you like to research?"] |}).
Proof.
  intros Hin Hall. unfold main. rewrite bind_emit.
  erewrite bind_inr by apply initialize_chat_run.
  erewrite bind_inr;
    [| apply display_chat_history_run with (messages := transcript w);
       [apply initialized_lookup | done]].
  rewrite bind_emit. cbn [session_state trace].
  destruct Hin as [-> | ->]; cbn; by rewrite <- !app_assoc.
Qed.

(** Every script run keeps the message list a list of turns, so the lists
    [main] meets, starting from a fresh session, are lists of turns. *)
Lemma main_keeps_turns agent_run today (chat_input : option string) (w : World) :
  Forall is_turn (transcript w) →
  Forall is_turn (transcript (main agent_run today chat_input w).2).
Proof.
  intros Hturns.
  assert (Forall has_keys (transcript w)) as Hkeys
    by (eapply Forall_impl; [done | by intros msg [? _]]).
  destruct chat_input as [prompt|]; [destruct (decide (prompt = "")) as [->|Hp] |].
  - rewrite main_idle by auto. cbn [snd]. by rewrite transcript_initialized.
  - rewrite main_run by done. cbn zeta.
    destruct (agent_run _ _ _) as [e|data]; cbn [snd].
    + by rewrite transcript_initialized.
    + unfold transcript at 1. cbn [session_state]. rewrite lookup_insert_eq. cbn.
      apply Forall_app. split; [done |].
      repeat constructor; apply message_dict_is_turn; auto.
  - rewrite main_idle by auto. cbn [snd]. by rewrite transcript_initialized.
Qed.

(** * The claims *)

Ltac by_computation := apply (bool_decide_eq_true_1 _); vm_compute; reflexivity.

(** ** Structured output *)

(** C2 (as stated, refuted): the schema accepts a payload whose three fields
    are empty strings, and a run on an empty transcript whose agent returns
    that result ends normally and stores an assistant turn made of the two
    blank lines only. *)
Lemma all_empty_result_is_returned :
  ResearchResult_validate empty_payload = inr empty_result
  ∧ research_title empty_result = ""
  ∧ research_main empty_result = ""
  ∧ research_bullets empty_result = ""
  ∧ (main empty_agent "2024-05-01" (Some "anything") empty_world).1 = inr tt
  ∧ transcript (main empty_agent "2024-05-01" (Some "anything") empty_world).2
    = [message_dict "user" "anything";
       message_dict "assistant" (blank_line +:+ blank_line)].
Proof. repeat split; vm_compute; reflexivity. Qed.

(** C2 (amended): a payload is returned as a [ResearchResult] exactly when
    its three fields are present and are strings, and the result carries
    those strings unchanged; nothing is required of their contents, so any
    of them, the body included, may be empty. *)
Theorem research_result_schema (payload : gmap string PyVal) (data : ResearchResult) :
  ResearchResult_validate payload = inr data
  ↔ payload !! "research_title" = Some (py_str (research_title data))
    ∧ payload !! "research_main" = Some (py_str (research_main data))
    ∧ payload !! "research_bullets" = Some (py_str (research_bullets data)).
Proof.
  unfold ResearchResult_validate, validate_str. split.
  - destruct (payload !! "research_title") as [[|x1|x2|t0|x3]|];
      destruct (payload !! "research_main") as [[|y1|y2|m0|y3]|];
      destruct (payload !! "research_bullets") as [[|z1|z2|b0|z3]|];
      try discriminate.
    by intros [= <-].
  - intros (-> & -> & ->). by destruct data.
Qed.

(** ** The chat surface *)

(** C3 (as stated, refuted): an agent run interrupted from the keyboard raises
    [KeyboardInterrupt], which is no instance of [Exception]: the [except]
    clause lets it through, [main] raises it in its turn, and no error message
    is drawn.  The message list is left as it was. *)
Lemma interrupted_run_draws_no_error :
  (main interrupted_agent "2024-05-01" (Some "What is new?") one_pair_world).1
    = inl (BaseRaised "KeyboardInterrupt" "")
  ∧ placeholder_errors
      (trace (main interrupted_agent "2024-05-01" (Some "What is new?") one_pair_world).2)
    = []
  ∧ transcript (main interrupted_agent "2024-05-01" (Some "What is new?") one_pair_world).2
    = transcript one_pair_world.
Proof. repeat split; vm_compute; reflexivity. Qed.

(** C3 (amended): atomicity on failure.  Whenever the [try] body raises, at
    whatever statement and with whatever exception, the session state after
    [main] is the one the body started from (that of the previous script run,
    with the message list created if it was missing), so no user turn and no
    assistant turn is stored.  For an instance of [Exception], [main] ends
    normally and the last thing drawn is the error message, made of the fixed
    prefix and [str] of the exception (its message, for an exception raised
    with one); an exception that is no instance of [Exception] leaves [main]
    as it is, and nothing more is drawn. *)
Theorem failed_run_leaves_transcript
    (agent_run : string → Deps → list Message → Exception + ResearchResult)
    (today prompt : string) (w w0 w1 : World) (e : Exception) :
  prompt ≠ "" →
  before_try prompt w = (inr tt, w0) →
  research agent_run today prompt w0 = (inl e, w1) →
  main agent_run today (Some prompt) w
    = (if is_Exception e then inr tt else inl e,
       {| session_state := initialized (session_state w);
          trace := trace w1 ++
            if is_Exception e
            then [placeholder_error ("An error occurred: " +:+ str e)]
            else [] |})
  ∧ transcript (main agent_run today (Some prompt) w).2 = transcript w
  ∧ (∀ cls msg, e = Raised cls msg →
       main agent_run today (Some prompt) w
       = (inr tt,
          {| session_state := initialized (session_state w);
             trace := trace w1 ++ [placeholder_error ("An error occurred: " +:+ msg)] |}))
  ∧ (∀ cls msg, e = BaseRaised cls msg →
       main agent_run today (Some prompt) w
       = (inl e, {| session_state := initialized (session_state w); trace := trace w1 |})).
Proof.
  intros Hp Hpre Hrun.
  assert (main agent_run today (Some prompt) w
          = (if is_Exception e then inr tt else inl e,
             {| session_state := initialized (session_state w);
                trace := trace w1 ++
                  if is_Exception e
                  then [placeholder_error ("An error occurred: " +:+ str e)]
                  else [] |})) as Hmain.
  { rewrite main_unfold by done. erewrite bind_inr by done.
    unfold try_except. rewrite Hrun.
    pose proof (research_keeps_on_error _ _ _ _ _ _ Hrun) as Hs.
    rewrite (before_try_session _ _ _ _ Hpre) in Hs.
    destruct (is_Exception e).
    - unfold on_error, emit. by rewrite Hs.
    - rewrite app_nil_r, <- Hs. by destruct w1. }
  split; [done |]. split; [| split].
  - rewrite Hmain. unfold transcript. cbn [snd session_state].
    by rewrite initialized_lookup.
  - intros cls msg ->. by rewrite Hmain.
  - intros cls msg ->. rewrite Hmain. cbn. by rewrite app_nil_r.
Qed.

(** C3 at a session holding one pair, with an agent that raises. *)
Lemma failed_run_leaves_transcript_witness :
  let e := Raised "RuntimeError" "model unavailable" in
  let w1 := (research failing_agent "2024-05-01" "What is new?"
               (before_try "What is new?" one_pair_world).2).2 in
  main failing_agent "2024-05-01" (Some "What is new?") one_pair_world
    = (if is_Exception e then inr tt else inl e,
       {| session_state := initialized (session_state one_pair_world);
          trace := trace w1 ++
            if is_Exception e
            then [placeholder_error ("An error occurred: " +:+ str e)]
            else [] |})
  ∧ transcript (main failing_agent "2024-05-01" (Some "What is new?") one_pair_world).2
    = transcript one_pair_world
  ∧ (∀ cls msg, e = Raised cls msg →
       main failing_agent "2024-05-01" (Some "What is new?") one_pair_world
       = (inr tt,
          {| session_state := initialized (session_state one_pair_world);
             trace := trace w1 ++ [placeholder_error ("An error occurred: " +:+ msg)] |}))
  ∧ (∀ cls msg, e = BaseRaised cls msg →
       main failing_agent "2024-05-01" (Some "What is new?") one_pair_world
       = (inl e, {| session_state := initialized (session_state one_pair_world);
                    trace := trace w1 |})).
Proof.
  apply (failed_run_leaves_transcript failing_agent "2024-05-01" "What is new?"
           one_pair_world (before_try "What is new?" one_pair_world).2).
  - discriminate.
  - vm_compute; reflexivity.
  - vm_compute; reflexivity.
Defined.

(** C4: a successful run.  When the agent returns [data], the placeholder
    shows, after the starting text and in this order, the title, then the
    title and a blank line (two newline characters), then these and the body,
    then these and a blank line, then the whole text ending with the bullets;
    each value is the one before it with the next part appended, hence a
    prefix of it and no shorter, and a prefix of the whole text; no error is
    drawn; and the message list grows by exactly two dicts, one with role user
    and the prompt as content, then one with role assistant and the whole
    text as content. *)
Theorem successful_run_streams_and_appends
    (agent_run : string → Deps → list Message → Exception + ResearchResult)
    (today prompt : string) (w : World) (data : ResearchResult) :
  prompt ≠ "" →
  Forall has_keys (transcript w) →
  agent_run prompt {| todays_date := today |}
    (message_of <$> filter chat_role (transcript w)) = inr data →
  let nn := String "010"%char (String "010"%char "") in
  let whole :=
    research_title data +:+ nn +:+ research_main data +:+ nn +:+ research_bullets data in
  let rendered :=
    [research_title data;
     research_title data +:+ nn;
     research_title data +:+ nn +:+ research_main data;
     research_title data +:+ nn +:+ research_main data +:+ nn;
     whole] in
  let user_turn : Msg := <["role" := "user"]> (<["content" := prompt]> ∅) in
  let assistant_turn : Msg := <["role" := "assistant"]> (<["content" := whole]> ∅) in
  ∃ tr : list Event,
    main agent_run today (Some prompt) w
      = (inr tt,
         {| session_state :=
              <["messages" := transcript w ++ [user_turn; assistant_turn]]> (session_state w);
            trace := trace w ++ tr |})
    ∧ placeholder_texts tr = "Starting research..." :: rendered
    ∧ placeholder_errors tr = []
    ∧ Forall (λ text, String.prefix text whole = true) rendered
    ∧ ∀ (i : nat) (s1 s2 : string),
        rendered !! i = Some s1 → rendered !! S i = Some s2 →
        (∃ part, response_parts data !! S i = Some part ∧ s2 = s1 +:+ part
                 ∧ String.length s2 = (String.length s1 + String.length part)%nat)
        ∧ String.prefix s1 s2 = true
        ∧ (String.length s1 ≤ String.length s2)%nat.
Proof.
  intros Hp Hall Hrun nn whole rendered user_turn assistant_turn.
  assert (whole = full_response_of data) as Hwhole by reflexivity.
  assert (rendered = reveals (response_parts data) "") as Hr
    by (symmetry; apply reveals_response_parts).
  clearbody rendered. subst rendered.
  exists (before_try_events (transcript w) prompt ++
          [st_spinner "Researching... 🔍";
           search_agent_run prompt {| todays_date := today |}
             (message_of <$> filter chat_role (transcript w))] ++
          stream_events (response_parts data) "").
  destruct (before_try_events_texts (transcript w) prompt) as (Ht & He & _).
  destruct (stream_events_texts (response_parts data) "") as (Hs & Hse & _).
  split; [| split; [| split; [| split]]].
  - rewrite main_run by done. cbn zeta. rewrite Hrun.
    by rewrite <- !app_assoc.
  - by rewrite !placeholder_texts_app, Ht, Hs.
  - by rewrite !placeholder_errors_app, He, Hse.
  - rewrite Hwhole, <- full_response_fold. apply reveals_prefix_of_whole.
  - intros i s1 s2 H1 H2.
    destruct (reveals_step _ _ _ _ _ H1 H2) as (part & Hpart & ->).
    split; [exists part; by rewrite length_append |].
    split; [apply prefix_append | rewrite length_append; lia].
Qed.

(** C4 at a session holding one pair, with an agent that answers. *)
Lemma successful_run_streams_and_appends_witness :
  let nn := String "010"%char (String "010"%char "") in
  let whole :=
    research_title paris +:+ nn +:+ research_main paris +:+ nn +:+ research_bullets paris in
  let rendered :=
    [research_title paris;
     research_title paris +:+ nn;
     research_title paris +:+ nn +:+ research_main paris;
     research_title paris +:+ nn +:+ research_main paris +:+ nn;
     whole] in
  let user_turn : Msg := <["role" := "user"]> (<["content" := "Capital of France?"]> ∅) in
  let assistant_turn : Msg := <["role" := "assistant"]> (<["content" := whole]> ∅) in
  ∃ tr : list Event,
    main paris_agent "2024-05-01" (Some "Capital of France?") one_pair_world
      = (inr tt,
         {| session_state :=
              <["messages" := transcript one_pair_world ++ [user_turn; assistant_turn]]>
                (session_state one_pair_world);
            trace := trace one_pair_world ++ tr |})
    ∧ placeholder_texts tr = "Starting research..." :: rendered
    ∧ placeholder_errors tr = []
    ∧ Forall (λ text, String.prefix text whole = true) rendered
    ∧ ∀ (i : nat) (s1 s2 : string),
        rendered !! i = Some s1 → rendered !! S i = Some s2 →
        (∃ part, response_parts paris !! S i = Some part ∧ s2 = s1 +:+ part
                 ∧ String.length s2 = (String.length s1 + String.length part)%nat)
        ∧ String.prefix s1 s2 = true
        ∧ (String.length s1 ≤ String.length s2)%nat.
Proof.
  apply (successful_run_streams_and_appends paris_agent "2024-05-01"
           "Capital of France?" one_pair_world paris).
  - discriminate.
  - by_computation.
  - reflexivity.
Defined.



(** C9: the history keeps the user and assistant messages and nothing else.
    For a message list in which every dict has a role, and a content when the
    role is one of the two, [get_message_history] raises nothing, changes
    nothing, and returns the messages whose role is user or assistant, in
    their order, each as the matching class with its content; a message of
    any other role contributes nothing. *)
Theorem history_keeps_chat_roles_only (w : World) (messages : list Msg) :
  session_state w !! "messages" = Some messages →
  Forall history_ready messages →
  get_message_history w = (inr (message_of <$> filter chat_role messages), w)
  ∧ (∀ msg, msg ∈ filter chat_role messages ↔
            msg ∈ messages ∧ (role_of msg = "user" ∨ role_of msg = "assistant"))
  ∧ filter chat_role messages `sublist_of` messages
  ∧ (∀ msg, msg ∈ filter chat_role messages →
            msg !! "role" = Some (message_role (message_of msg))
            ∧ msg !! "content" = Some (message_content (message_of msg))).
Proof.
  intros Hm Hall. split; [by apply get_message_history_run |].
  split; [| split].
  - intros msg. rewrite list_elem_of_filter. unfold chat_role. tauto.
  - apply sublist_filter.
  - intros msg [Hrole Hin]%list_elem_of_filter.
    rewrite Forall_forall in Hall. destruct (Hall msg Hin) as [Hr Hc].
    apply message_of_turn. by repeat split; [| apply Hc |].
Qed.

(** C9 at a list with a system message and a message that has a role only. *)
Lemma history_keeps_chat_roles_only_witness :
  get_message_history mixed_world
    = (inr (message_of <$> filter chat_role mixed_messages), mixed_world)
  ∧ (∀ msg, msg ∈ filter chat_role mixed_messages ↔
            msg ∈ mixed_messages ∧ (role_of msg = "user" ∨ role_of msg = "assistant"))
  ∧ filter chat_role mixed_messages `sublist_of` mixed_messages
  ∧ (∀ msg, msg ∈ filter chat_role mixed_messages →
            msg !! "role" = Some (message_role (message_of msg))
            ∧ msg !! "content" = Some (message_content (message_of msg))).
Proof.
  apply (history_keeps_chat_roles_only mixed_world mixed_messages).
  - reflexivity.
  - by_computation.
Defined.

(** C10: [initialize_chat] is idempotent.  It raises nothing and draws
    nothing; a session state that has a message list is returned as it is,
    one that has none gets the empty list; running it a second time changes
    nothing more. *)
Theorem initialize_chat_idempotent (w : World) :
  initialize_chat w
    = (inr tt,
       match session_state w !! "messages" with
       | Some _ => w
       | None => {| session_state := <["messages" := []]> (session_state w);
                    trace := trace w |}
       end)
  ∧ initialize_chat (initialize_chat w).2 = initialize_chat w.
Proof.
  split.
  - rewrite initialize_chat_run.
    destruct (session_state w !! "messages") as [l|] eqn:Hl.
    + by rewrite (initialized_present _ l), world_eta.
    + by rewrite initialized_absent.
  - rewrite !initialize_chat_run. cbn [snd session_state trace].
    by rewrite initialized_idemp.
Qed.

(** ** The tools *)

(** C5 (as stated, refuted): the model is not shown two tools named
    knowledge_lookup and web_search.  It is shown three, the two functions
    under their own names and the result tool; neither listed name occurs
    among them; and the two functions are declared to return a
    [dict[str, Any]], which names none of the listed result fields. *)
Lemma tool_names_are_not_the_listed_ones :
  exposed_contract search_agent ≠ spec_tool_contract
  ∧ length (exposed_tools search_agent) = 3%nat
  ∧ ("knowledge_lookup" ∉ tool_name <$> exposed_tools search_agent)
  ∧ ("web_search" ∉ tool_name <$> exposed_tools search_agent)
  ∧ declared_shape <$> [def_returns add_toolkit_information_def; def_returns get_search_def]
    ≠ spec_result_shapes.
Proof.
  split; [discriminate |]. split; [reflexivity |].
  split; [by_computation |]. split; [by_computation | discriminate].
Qed.

(** C5 (amended): the file registers exactly two function tools with the
    agent, under the names of their functions and in this order:
    add_toolkit_information, taking a string query, and get_search, taking a
    string query and an integer query_number (the argument shapes are the
    listed ones); both functions are declared to return a [dict[str, Any]],
    with no field fixed.  Since the agent has a structured result type, the
    model is shown a third tool besides them, final_result, whose arguments
    are the three string fields of the result. *)
Theorem tool_contract :
  function_tools search_agent
    = [ {| tool_name := "add_toolkit_information";
           tool_parameters := [("query", json_string)] |};
        {| tool_name := "get_search";
           tool_parameters := [("query", json_string); ("query_number", json_integer)] |} ]
  ∧ exposed_tools search_agent
    = function_tools search_agent ++
      [ {| tool_name := "final_result";
           tool_parameters := [("research_title", json_string);
                               ("research_main", json_string);
                               ("research_bullets", json_string)] |} ]
  ∧ tool_parameters <$> function_tools search_agent = spec_tool_contract.*2
  ∧ def_returns add_toolkit_information_def = ann_dict_str_Any
  ∧ def_returns get_search_def = ann_dict_str_Any.
Proof. repeat split; reflexivity. Qed.

(** C8 (as stated, refuted): a provider that answers with four results gets
    all four through; the adapter cuts nothing. *)
Lemma search_results_are_not_truncated :
  (get_search four_results_provider search_ctx "rocq prover" 1 empty_world).1
    = inr four_results
  ∧ length four_results = 4%nat
  ∧ ¬ (length four_results ≤ 3)%nat.
Proof.
  split; [vm_compute; reflexivity |]. split; [reflexivity | cbn; lia].
Qed.

(** C8 (amended): the adapter has no result-count argument.  Whatever the
    provider and the query, it prints the query line, asks the provider once,
    for the constant 3, a positive number, and hands back what the provider
    answers or raises, unchanged. *)
Theorem search_requests_three_and_forwards
    {Response : Type} (provider : string → Z → Exception + Response)
    (ctx : RunContext SearchDataclass) (query : string) (query_number : Z) (w : World) :
  get_search provider ctx query query_number w
    = (provider query 3%Z,
       {| session_state := session_state w;
          trace := trace w ++
            [print ("Search query " +:+ pretty query_number +:+ ": " +:+ query);
             get_search_context query 3] |})
  ∧ search_requests
      (drop (length (trace w)) (trace (get_search provider ctx query query_number w).2))
    = [(query, 3%Z)]
  ∧ (0 < 3)%Z.
Proof.
  assert (get_search provider ctx query query_number w
          = (provider query 3%Z,
             {| session_state := session_state w;
                trace := trace w ++
                  [print ("Search query " +:+ pretty query_number +:+ ": " +:+ query);
                   get_search_context query 3] |})) as Hrun.
  { unfold get_search. rewrite !bind_emit. unfold outcome.
    cbn [session_state trace]. by rewrite <- app_assoc. }
  split; [done |]. split; [| done].
  rewrite Hrun. cbn [snd trace]. by rewrite drop_app_length.
Qed.

(** ** Startup *)

Section StartupFacts.

Variable logfire_configured : gmap string string → Exception + unit.
Context {Client : Type}.
Variable AsyncTavilyClient : string → Exception + Client.
Variable Agent_init : gmap string string → Exception + unit.

(** The whole course of the script, stage by stage. *)
Lemma script_run (dotenv_values environ : gmap string string)
    (agent_run : string → Deps → list Message → Exception + ResearchResult)
    (today : string) (chat_input : option string) (w : World) :
  script logfire_configured AsyncTavilyClient Agent_init dotenv_values environ
    agent_run today chat_input w
  = let environ' := load_dotenv dotenv_values environ in
    let at_stage evs := {| session_state := session_state w; trace := trace w ++ evs |} in
    match logfire_configured environ' with
    | inl e => (inl e, at_stage [logfire_configure])
    | inr _ =>
        match environ' !! "TAVILY_API_KEY" with
        | None => (inl (KeyError "TAVILY_API_KEY"), at_stage [logfire_configure])
        | Some key =>
            match AsyncTavilyClient key with
            | inl e => (inl e, at_stage [logfire_configure; tavily_client_init key])
            | inr _ =>
                match Agent_init environ' with
                | inl e =>
                    (inl e, at_stage [logfire_configure; tavily_client_init key;
                                      agent_init "openai:gpt-4"])
                | inr _ =>
                    main agent_run today chat_input
                      (at_stage [logfire_configure; tavily_client_init key;
                                 agent_init "openai:gpt-4"])
                end
            end
        end
    end.
Proof.
  cbn zeta.
  unfold script, module_init, environ_getitem, mbind, M_bind, emit, outcome, mret, M_ret.
  cbn [session_state trace].
  destruct (logfire_configured _) as [e|u]; [done |].
  destruct (load_dotenv dotenv_values environ !! "TAVILY_API_KEY") as [key|]; [| done].
  cbn [session_state trace]. rewrite <- ?app_assoc. cbn [app].
  destruct (AsyncTavilyClient key) as [e|client]; [done |].
  cbn [session_state trace]. rewrite <- ?app_assoc. cbn [app].
  by destruct (Agent_init _) as [e|u'].
Qed.

(** C6 (amended): the credential is required at startup.  The variable is
    looked up in the environment as [load_dotenv()] leaves it, so it is absent
    when neither the process environment nor the .env file has it.  Absent,
    the script raises before anything else is built and [main] is never
    entered: the exception is the [KeyError] on the variable name, unless
    [logfire.configure()], which runs first, has raised its own.  Present,
    the lookup is reached only if [logfire.configure()] returns; then its
    value is handed to the client constructor, and the script goes on,
    through the construction of the client and of the agent, to [main] if
    both return. *)
Theorem credential_required_at_startup
    (dotenv_values environ : gmap string string)
    (agent_run : string → Deps → list Message → Exception + ResearchResult)
    (today : string) (chat_input : option string) (w : World) :
  let run := script logfire_configured AsyncTavilyClient Agent_init dotenv_values environ
               agent_run today chat_input w in
  let environ' := load_dotenv dotenv_values environ in
  let at_stage evs := {| session_state := session_state w; trace := trace w ++ evs |} in
  (environ' !! "TAVILY_API_KEY" = None
   ↔ environ !! "TAVILY_API_KEY" = None ∧ dotenv_values !! "TAVILY_API_KEY" = None)
  ∧ match environ' !! "TAVILY_API_KEY" with
    | None =>
        run = (match logfire_configured environ' with
               | inl e => inl e
               | inr _ => inl (KeyError "TAVILY_API_KEY")
               end, at_stage [logfire_configure])
    | Some key =>
        match logfire_configured environ' with
        | inl e => run = (inl e, at_stage [logfire_configure])
        | inr _ =>
            match AsyncTavilyClient key with
            | inl e => run = (inl e, at_stage [logfire_configure; tavily_client_init key])
            | inr _ =>
                match Agent_init environ' with
                | inl e =>
                    run = (inl e, at_stage [logfire_configure; tavily_client_init key;
                                            agent_init "openai:gpt-4"])
                | inr _ =>
                    run = main agent_run today chat_input
                            (at_stage [logfire_configure; tavily_client_init key;
                                       agent_init "openai:gpt-4"])
                end
            end
        end
    end.
Proof.
  cbn zeta. split; [unfold load_dotenv; apply lookup_union_None |].
  rewrite script_run. cbn zeta.
  destruct (load_dotenv dotenv_values environ !! "TAVILY_API_KEY") as [key|];
    destruct (logfire_configured _) as [e|u]; try done.
  destruct (AsyncTavilyClient key) as [e|client]; [done |].
  by destruct (Agent_init _) as [e|u'].
Qed.

End StartupFacts.

(** C6 (as stated, refuted): with the variable set, startup still stops
    before the credential is read when Logfire has no settings:
    [logfire.configure()] raises on the line before, nothing is handed to the
    client constructor and [main] is not entered. *)
Lemma startup_stops_before_the_credential :
  load_dotenv ∅ key_in_environ !! "TAVILY_API_KEY" = Some "tvly-process"
  ∧ script logfire_unconfigured tavily_ready agent_ready ∅ key_in_environ
      paris_agent "2024-05-01" None empty_world
    = (inl (Raised "LogfireConfigError" "No Logfire project credentials found."),
       {| session_state := ∅; trace := [logfire_configure] |}).
Proof. split; vm_compute; reflexivity. Qed.

(** * Further properties of the script *)

(** ** Malformed messages *)

Lemma Forall_first_failure {A} (P : A → Prop) `{!∀ x, Decision (P x)} (l : list A) :
  Forall P l ∨ ∃ good bad rest, l = good ++ bad :: rest ∧ Forall P good ∧ ¬ P bad.
Proof.
  induction l as [|x l IH]; [by left |].
  destruct (decide (P x)) as [Hx|Hx].
  - destruct IH as [IH | (good & bad & rest & -> & Hgood & Hbad)].
    + left. by constructor.
    + right. exists (x :: good), bad, rest. repeat split; [by constructor | done].
  - right. exists [], x, l. repeat split; [constructor | done].
Qed.

Lemma display_events_app (l1 l2 : list Msg) :
  display_events (l1 ++ l2) = display_events l1 ++ display_events l2.
Proof. unfold display_events. apply flat_map_app. Qed.

Lemma display_loop_bad (good rest : list Msg) (bad : Msg) (w : World) :
  Forall has_keys good → ¬ has_keys bad →
  for_each (good ++ bad :: rest) (λ message,
    role ← getitem message "role";
    emit (st_chat_message role) ;;
    content ← getitem message "content";
    emit (st_markdown content)) w
  = (inl (KeyError (missing_key bad)),
     {| session_state := session_state w;
        trace := trace w ++ display_events good ++ opened_bubble bad |}).
Proof.
  intros Hgood Hbad. revert w.
  induction Hgood as [|msg good [Hr Hc] _ IH]; intros w.
  - cbn [app for_each]. unfold missing_key, opened_bubble, has_keys in *.
    destruct (bad !! "role") as [role|] eqn:Hrole.
    + destruct (bad !! "content") as [content|] eqn:Hcontent.
      { exfalso. apply Hbad. eauto. }
      erewrite bind_inl; [done |].
      erewrite bind_inr by (unfold getitem; by rewrite Hrole).
      rewrite bind_emit.
      erewrite bind_inl by (unfold getitem; by rewrite Hcontent). done.
    + erewrite bind_inl; [| erewrite bind_inl by (unfold getitem; by rewrite Hrole); done].
      cbn [display_events flat_map]. by rewrite app_nil_r, world_eta.
  - cbn [app for_each].
    erewrite bind_inr; [| erewrite bind_inr by (by apply getitem_role);
                          rewrite bind_emit;
                          erewrite bind_inr by (by apply getitem_content);
                          reflexivity].
    rewrite IH. cbn [session_state trace].
    unfold display_events. cbn [flat_map]. by rewrite <- !app_assoc.
Qed.

Lemma display_chat_history_bad (good rest : list Msg) (bad : Msg) (w : World) :
  session_state w !! "messages" = Some (good ++ bad :: rest) →
  Forall has_keys good → ¬ has_keys bad →
  display_chat_history w
  = (inl (KeyError (missing_key bad)),
     {| session_state := session_state w;
        trace := trace w ++ display_events good ++ opened_bubble bad |}).
Proof.
  intros Hm Hgood Hbad. unfold display_chat_history.
  erewrite bind_inr; [| unfold session_messages; by rewrite Hm].
  by apply display_loop_bad.
Qed.

Lemma transcript_lookup (w : World) (l : list Msg) :
  transcript w = l → l ≠ [] → session_state w !! "messages" = Some l.
Proof.
  unfold transcript. destruct (session_state w !! "messages"); cbn; congruence.
Qed.

(** [main] on a session whose list has a message lacking a key: the
    [KeyError] of [display_chat_history] leaves [main], which stops there. *)
Lemma main_bad agent_run today (chat_input : option string)
    (good rest : list Msg) (bad : Msg) (w : World) :
  transcript w = good ++ bad :: rest →
  Forall has_keys good → ¬ has_keys bad →
  main agent_run today chat_input w
  = (inl (KeyError (missing_key bad)),
     {| session_state := session_state w;
        trace := trace w ++ [st_title "Research Assistant"] ++
                 display_events good ++ opened_bubble bad |}).
Proof.
  intros Ht Hgood Hbad.
  assert (session_state w !! "messages" = Some (good ++ bad :: rest)) as Hm
    by (apply transcript_lookup; [done | by destruct good]).
  unfold main. rewrite bind_emit.
  erewrite bind_inr by apply initialize_chat_run.
  cbn [session_state trace]. rewrite (initialized_present _ _ Hm).
  erewrite bind_inl; [| by apply (display_chat_history_bad good rest bad)];
    cbn [session_state trace].
  by rewrite <- !app_assoc.
Qed.

(** X1: [display_chat_history] stops at the first message that lacks a key.
    The messages before it are drawn; for a message that has a role but no
    content the bubble is opened before the [KeyError] on content; the
    messages after it are not drawn, and the session state is untouched. *)
Theorem display_stops_at_first_bad_message
    (good rest : list Msg) (bad : Msg) (w : World) :
  session_state w !! "messages" = Some (good ++ bad :: rest) →
  Forall has_keys good → ¬ has_keys bad →
  display_chat_history w
  = (inl (KeyError (missing_key bad)),
     {| session_state := session_state w;
        trace := trace w ++ display_events good ++ opened_bubble bad |})
  ∧ (is_Some (bad !! "role") → missing_key bad = "content"
       ∧ opened_bubble bad = [st_chat_message (role_of bad)])
  ∧ (bad !! "role" = None → missing_key bad = "role" ∧ opened_bubble bad = []).
Proof.
  intros Hm Hgood Hbad.
  split; [by apply (display_chat_history_bad good rest bad) |].
  unfold missing_key, opened_bubble, role_of.
  split; [intros [role ->] | intros ->]; done.
Qed.

Lemma display_stops_at_first_bad_message_witness :
  display_chat_history broken_world
  = (inl (KeyError (missing_key {["role" := "assistant"]})),
     {| session_state := session_state broken_world;
        trace := trace broken_world ++ display_events [message_dict "user" "first"] ++
                 opened_bubble {["role" := "assistant"]} |})
  ∧ (is_Some (({["role" := "assistant"]} : Msg) !! "role") →
       missing_key {["role" := "assistant"]} = "content"
       ∧ opened_bubble {["role" := "assistant"]}
         = [st_chat_message (role_of {["role" := "assistant"]})])
  ∧ (({["role" := "assistant"]} : Msg) !! "role" = None →
       missing_key {["role" := "assistant"]} = "role"
       ∧ opened_bubble {["role" := "assistant"]} = []).
Proof.
  apply (display_stops_at_first_bad_message [message_dict "user" "first"]
           [message_dict "user" "later"] {["role" := "assistant"]} broken_world).
  - reflexivity.
  - by_computation.
  - intros H. revert H. apply (bool_decide_eq_false_1 _). vm_compute. reflexivity.
Defined.

(** X2: a stored message that lacks a key makes [main] raise.  The loop that
    redraws the history runs outside the [try] block, so its [KeyError] is
    not turned into an error message: [main] ends with the exception, the
    input box is never drawn, the agent is not called, and the session state
    is left as it was. *)
Theorem main_raises_on_malformed_history
    (agent_run : string → Deps → list Message → Exception + ResearchResult)
    (today : string) (chat_input : option string)
    (good rest : list Msg) (bad : Msg) (w : World) :
  transcript w = good ++ bad :: rest →
  Forall has_keys good → ¬ has_keys bad →
  ∃ tr : list Event,
    main agent_run today chat_input w
      = (inl (KeyError (missing_key bad)),
         {| session_state := session_state w; trace := trace w ++ tr |})
    ∧ agent_calls tr = []
    ∧ placeholder_errors tr = []
    ∧ st_chat_input "What would you like to research?" ∉ tr.
Proof.
  intros Ht Hgood Hbad.
  exists ([st_title "Research Assistant"] ++ display_events good ++ opened_bubble bad).
  split; [by apply (main_bad _ _ _ good rest bad) |].
  destruct (display_events_quiet good) as (_ & He & Ha).
  rewrite !agent_calls_app, !placeholder_errors_app, Ha, He.
  assert (∀ ev, ev ∈ display_events good →
                ∃ text, ev = st_chat_message text ∨ ev = st_markdown text) as Hev.
  { intros ev. unfold display_events. rewrite list_elem_of_In, in_flat_map.
    intros (msg & _ & Hin). cbn in Hin. destruct Hin as [<- | [<- | []]]; eauto. }
  unfold opened_bubble. destruct (bad !! "role") as [role|].
  - split; [done | split; [done |]].
    rewrite !elem_of_app, !list_elem_of_singleton.
    intros [? | [(text & [? | ?])%Hev | ?]]; simplify_eq.
  - split; [done | split; [done |]].
    rewrite !elem_of_app, list_elem_of_singleton.
    intros [? | [(text & [? | ?])%Hev | H]]; simplify_eq. by apply elem_of_nil in H.
Qed.

Lemma main_raises_on_malformed_history_witness :
  ∃ tr : list Event,
    main paris_agent "2024-05-01" (Some "anything") broken_world
      = (inl (KeyError (missing_key {["role" := "assistant"]})),
         {| session_state := session_state broken_world;
            trace := trace broken_world ++ tr |})
    ∧ agent_calls tr = []
    ∧ placeholder_errors tr = []
    ∧ st_chat_input "What would you like to research?" ∉ tr.
Proof.
  apply (main_raises_on_malformed_history paris_agent "2024-05-01" (Some "anything")
           [message_dict "user" "first"] [message_dict "user" "later"]
           {["role" := "assistant"]} broken_world).
  - reflexivity.
  - by_computation.
  - intros H. revert H. apply (bool_decide_eq_false_1 _). vm_compute. reflexivity.
Defined.

Lemma get_message_history_loop_app (l1 l2 : list Msg) (acc : list Message) (w : World) :
  Forall history_ready l1 →
  get_message_history_loop (l1 ++ l2) acc w
  = get_message_history_loop l2 (acc ++ (message_of <$> filter chat_role l1)) w.
Proof.
  intros Hall. revert acc.
  induction Hall as [|msg rest [Hr Hc] _ IH]; intros acc.
  - cbn. by rewrite app_nil_r.
  - cbn [app get_message_history_loop].
    erewrite bind_inr by (by apply getitem_role).
    rewrite filter_cons.
    destruct (decide (role_of msg = "user")) as [Hu|Hu].
    + assert (chat_role msg) as Hchat by (by left).
      erewrite bind_inr by (by apply getitem_content, Hc).
      rewrite IH, decide_True by done.
      by rewrite fmap_cons, message_of_user, <- app_assoc.
    + destruct (decide (role_of msg = "assistant")) as [Ha|Ha].
      * assert (chat_role msg) as Hchat by (by right).
        erewrite bind_inr by (by apply getitem_content, Hc).
        rewrite IH, decide_True by done.
        by rewrite fmap_cons, message_of_assistant, <- app_assoc.
      * rewrite IH, decide_False; [done |]. by intros [?|?].
Qed.

Lemma get_message_history_loop_head_bad (bad : Msg) (rest : list Msg)
    (acc : list Message) (w : World) :
  ¬ history_ready bad →
  get_message_history_loop (bad :: rest) acc w = (inl (KeyError (missing_key bad)), w).
Proof.
  intros Hbad. cbn [get_message_history_loop].
  unfold history_ready, chat_role, role_of, missing_key in *.
  destruct (bad !! "role") as [role|] eqn:Hrole; cbn in Hbad.
  - destruct (bad !! "content") as [content|] eqn:Hcontent.
    { exfalso. apply Hbad. eauto. }
    erewrite bind_inr by (unfold getitem; by rewrite Hrole).
    destruct (decide (role = "user")) as [Hu|Hu];
      [by erewrite bind_inl by (unfold getitem; by rewrite Hcontent) |].
    destruct (decide (role = "assistant")) as [Ha|Ha];
      [by erewrite bind_inl by (unfold getitem; by rewrite Hcontent) |].
    exfalso. apply Hbad. split; [eauto | by intros [?|?]].
  - by erewrite bind_inl by (unfold getitem; by rewrite Hrole).
Qed.

(** X3: [get_message_history] raises on the first message it cannot read: a
    dict without a role, or a user or assistant dict without a content.  The
    exception is the [KeyError] of the missing key and nothing has changed
    when it leaves; no partial history is returned. *)
Theorem history_raises_on_first_unreadable_message
    (good rest : list Msg) (bad : Msg) (w : World) :
  session_state w !! "messages" = Some (good ++ bad :: rest) →
  Forall history_ready good → ¬ history_ready bad →
  get_message_history w = (inl (KeyError (missing_key bad)), w)
  ∧ (bad !! "role" = None ∧ missing_key bad = "role"
     ∨ chat_role bad ∧ bad !! "content" = None ∧ missing_key bad = "content").
Proof.
  intros Hm Hgood Hbad. split.
  - unfold get_message_history.
    erewrite bind_inr; [| unfold session_messages; by rewrite Hm].
    rewrite get_message_history_loop_app by done.
    by apply get_message_history_loop_head_bad.
  - unfold history_ready, missing_key in *.
    destruct (bad !! "role") as [role|] eqn:Hrole; [right | by left].
    destruct (decide (chat_role bad)) as [Hchat|Hchat];
      [| exfalso; apply Hbad; split; [eauto | done]].
    destruct (bad !! "content") as [content|] eqn:Hcontent; [| done].
    exfalso. apply Hbad. split; eauto.
Qed.

Lemma history_raises_on_first_unreadable_message_witness :
  get_message_history broken_world
    = (inl (KeyError (missing_key {["role" := "assistant"]})), broken_world)
  ∧ ((({["role" := "assistant"]} : Msg) !! "role" = None
      ∧ missing_key {["role" := "assistant"]} = "role")
     ∨ chat_role {["role" := "assistant"]}
       ∧ ({["role" := "assistant"]} : Msg) !! "content" = None
       ∧ missing_key {["role" := "assistant"]} = "content").
Proof.
  apply (history_raises_on_first_unreadable_message [message_dict "user" "first"]
           [message_dict "user" "later"] {["role" := "assistant"]} broken_world).
  - reflexivity.
  - by_computation.
  - intros H. revert H. apply (bool_decide_eq_false_1 _). vm_compute. reflexivity.
Defined.

(** ** Script runs without a prompt *)

(** X4: a script run with nothing submitted, or with an empty text, draws
    the title, the stored messages and the input box, and nothing else: the
    agent is not called, the placeholder is not used, and the message list
    is the one found (created empty if the session had none). *)
Theorem nothing_submitted_draws_page_only
    (agent_run : string → Deps → list Message → Exception + ResearchResult)
    (today : string) (chat_input : option string) (w : World) :
  chat_input = None ∨ chat_input = Some "" →
  Forall has_keys (transcript w) →
  ∃ tr : list Event,
    main agent_run today chat_input w
      = (inr tt, {| session_state := initialized (session_state w);
                    trace := trace w ++ tr |})
    ∧ tr = [st_title "Research Assistant"] ++ display_events (transcript w) ++
           [st_chat_input "What would you like to research?"]
    ∧ agent_calls tr = []
    ∧ placeholder_texts tr = []
    ∧ placeholder_errors tr = []
    ∧ transcript (main agent_run today chat_input w).2 = transcript w.
Proof.
  intros Hin Hall. eexists. split; [by apply main_idle |]. split; [done |].
  destruct (display_events_quiet (transcript w)) as (Ht & He & Ha).
  rewrite !agent_calls_app, !placeholder_texts_app, !placeholder_errors_app.
  rewrite Ht, He, Ha, main_idle by done.
  repeat split. cbn [snd]. apply transcript_initialized.
Qed.

Lemma nothing_submitted_draws_page_only_witness :
  ∃ tr : list Event,
    main paris_agent "2024-05-01" (Some "") one_pair_world
      = (inr tt, {| session_state := initialized (session_state one_pair_world);
                    trace := trace one_pair_world ++ tr |})
    ∧ tr = [st_title "Research Assistant"] ++ display_events (transcript one_pair_world) ++
           [st_chat_input "What would you like to research?"]
    ∧ agent_calls tr = []
    ∧ placeholder_texts tr = []
    ∧ placeholder_errors tr = []
    ∧ transcript (main paris_agent "2024-05-01" (Some "") one_pair_world).2
      = transcript one_pair_world.
Proof.
  apply (nothing_submitted_draws_page_only paris_agent "2024-05-01" (Some "")
           one_pair_world).
  - by right.
  - by_computation.
Defined.

(** ** What a script run does to the session state *)

Lemma initialized_other (s : gmap string (list Msg)) (k : string) :
  k ≠ "messages" → initialized s !! k = s !! k.
Proof.
  intros Hk. unfold initialized. case_decide; [done |].
  by rewrite lookup_insert_ne.
Qed.

(** X5: a script run only ever appends to the message list, and touches no
    other entry of the session state.  Whatever the session state, the input
    and the agent's behaviour, the list after [main] is the list before it,
    followed by nothing or by one user turn holding the prompt and one
    assistant turn; every other key of the session state keeps its value. *)
Theorem main_only_appends
    (agent_run : string → Deps → list Message → Exception + ResearchResult)
    (today : string) (chat_input : option string) (w : World) :
  (transcript (main agent_run today chat_input w).2 = transcript w
   ∨ ∃ prompt text,
       chat_input = Some prompt ∧ prompt ≠ ""
       ∧ transcript (main agent_run today chat_input w).2
         = transcript w ++ [message_dict "user" prompt; message_dict "assistant" text])
  ∧ ∀ k, k ≠ "messages" →
         session_state (main agent_run today chat_input w).2 !! k = session_state w !! k.
Proof.
  destruct (Forall_first_failure has_keys (transcript w))
    as [Hall | (good & bad & rest & Ht & Hgood & Hbad)].
  - assert (chat_input = None ∨ chat_input = Some "" ∨
            ∃ prompt, chat_input = Some prompt ∧ prompt ≠ "") as [Hin | [Hin | Hin]].
    { destruct chat_input as [prompt|]; [| by left].
      destruct (decide (prompt = "")) as [->|]; eauto. }
    + rewrite main_idle by auto. cbn [snd session_state].
      split; [left; apply transcript_initialized | intros k; apply initialized_other].
    + rewrite main_idle by auto. cbn [snd session_state].
      split; [left; apply transcript_initialized | intros k; apply initialized_other].
    + destruct Hin as (prompt & -> & Hp).
      rewrite main_run by done. cbn zeta.
      destruct (agent_run _ _ _) as [e|data]; cbn [snd session_state].
      * split; [left; apply transcript_initialized | intros k; apply initialized_other].
      * split; [| intros k Hk; by rewrite lookup_insert_ne].
        right. exists prompt, (full_response_of data). repeat split; [done |].
        unfold transcript at 1. cbn [session_state]. by rewrite lookup_insert_eq.
  - rewrite (main_bad _ _ _ good rest bad) by done. cbn [snd session_state].
    split; [by left | done].
Qed.

(** ** From one script run to the next *)

Lemma message_dict_has_keys (role content : string) : has_keys (message_dict role content).
Proof.
  destruct (message_dict_lookup role content) as [Hr Hc].
  unfold has_keys. rewrite Hr, Hc. eauto.
Qed.

Lemma message_dict_role_of (role content : string) :
  role_of (message_dict role content) = role
  ∧ content_of (message_dict role content) = content.
Proof.
  destruct (message_dict_lookup role content) as [Hr Hc].
  unfold role_of, content_of. by rewrite Hr, Hc.
Qed.

Lemma stored_pair_has_keys (prompt : string) (r : Exception + ResearchResult) :
  Forall has_keys (stored_pair prompt r).
Proof. destruct r; repeat constructor; apply message_dict_has_keys. Qed.

Lemma stored_pair_history (prompt : string) (r : Exception + ResearchResult) :
  message_of <$> filter chat_role (stored_pair prompt r)
  = match r with
    | inr data => [UserPrompt prompt; ModelTextResponse (full_response_of data)]
    | inl _ => []
    end.
Proof.
  destruct r as [e|data]; [done |]. unfold stored_pair.
  destruct (message_dict_role_of "user" prompt) as [Hu Huc].
  destruct (message_dict_role_of "assistant" (full_response_of data)) as [Ha Hac].
  rewrite !filter_cons, filter_nil.
  rewrite !decide_True by (unfold chat_role; rewrite ?Hu, ?Ha; auto).
  rewrite !fmap_cons, message_of_user, message_of_assistant, Huc, Hac by done. done.
Qed.

Lemma stored_pair_display (prompt : string) (r : Exception + ResearchResult) :
  display_events (stored_pair prompt r)
  = match r with
    | inr data => [st_chat_message "user"; st_markdown prompt;
                   st_chat_message "assistant"; st_markdown (full_response_of data)]
    | inl _ => []
    end.
Proof.
  destruct r as [e|data]; [done |]. unfold stored_pair, display_events. cbn [flat_map app].
  destruct (message_dict_role_of "user" prompt) as [-> ->].
  by destruct (message_dict_role_of "assistant" (full_response_of data)) as [-> ->].
Qed.

(** The message list after a script run that was given a prompt. *)
Lemma main_transcript agent_run today (prompt : string) (w : World) :
  prompt ≠ "" →
  Forall has_keys (transcript w) →
  session_state (main agent_run today (Some prompt) w).2 !! "messages"
  = Some (transcript w ++
          stored_pair prompt
            (agent_run prompt {| todays_date := today |}
               (message_of <$> filter chat_role (transcript w)))).
Proof.
  intros Hp Hall. rewrite main_run by done. cbn zeta.
  destruct (agent_run _ _ _) as [e|data]; cbn [snd session_state stored_pair].
  - by rewrite initialized_lookup, app_nil_r.
  - by rewrite lookup_insert_eq.
Qed.

(** X6: what is stored is what the agent is told next.  After a script run
    with a prompt, the history built for the following run is the history of
    this run followed, if the agent answered, by the prompt as a user prompt
    and the whole rendered text as a model response, and by nothing if the run
    failed. *)
Theorem next_history_extends_by_the_exchange
    (agent_run : string → Deps → list Message → Exception + ResearchResult)
    (today prompt : string) (w : World) :
  prompt ≠ "" →
  Forall has_keys (transcript w) →
  let history := message_of <$> filter chat_role (transcript w) in
  let w' := (main agent_run today (Some prompt) w).2 in
  get_message_history w'
  = (inr (history ++
          match agent_run prompt {| todays_date := today |} history with
          | inr data => [UserPrompt prompt; ModelTextResponse (full_response_of data)]
          | inl _ => []
          end), w').
Proof.
  intros Hp Hall history w'.
  erewrite get_message_history_run; [| by apply main_transcript |].
  - by rewrite filter_app, fmap_app, stored_pair_history.
  - apply Forall_app. split; eapply Forall_impl;
      [exact Hall | apply has_keys_history_ready
      | apply stored_pair_has_keys | apply has_keys_history_ready].
Qed.

Lemma next_history_extends_by_the_exchange_witness :
  let history := message_of <$> filter chat_role (transcript one_pair_world) in
  let w' := (main paris_agent "2024-05-01" (Some "Capital of France?") one_pair_world).2 in
  get_message_history w'
  = (inr (history ++
          match paris_agent "Capital of France?" {| todays_date := "2024-05-01" |} history with
          | inr data => [UserPrompt "Capital of France?";
                         ModelTextResponse (full_response_of data)]
          | inl _ => []
          end), w').
Proof.
  apply (next_history_extends_by_the_exchange paris_agent "2024-05-01"
           "Capital of France?" one_pair_world).
  - discriminate.
  - by_computation.
Defined.

(** X7: what the next script run redraws.  After a run with a prompt, a run
    with nothing submitted draws the messages shown before, followed, if the
    agent answered, by the prompt in a user bubble and the whole rendered text
    in an assistant bubble.  After a failed run it draws the earlier messages
    only: the prompt that failed and its error message are gone. *)
Theorem next_run_redraws_the_stored_exchange
    (agent_run agent_run' : string → Deps → list Message → Exception + ResearchResult)
    (today today' prompt : string) (w : World) :
  prompt ≠ "" →
  Forall has_keys (transcript w) →
  let w' := (main agent_run today (Some prompt) w).2 in
  main agent_run' today' None w'
  = (inr tt,
     {| session_state := session_state w';
        trace := trace w' ++ [st_title "Research Assistant"] ++
                 display_events (transcript w) ++
                 match agent_run prompt {| todays_date := today |}
                         (message_of <$> filter chat_role (transcript w)) with
                 | inr data => [st_chat_message "user"; st_markdown prompt;
                                st_chat_message "assistant";
                                st_markdown (full_response_of data)]
                 | inl _ => []
                 end ++
                 [st_chat_input "What would you like to research?"] |}).
Proof.
  intros Hp Hall w'.
  pose proof (main_transcript agent_run today prompt w Hp Hall) as Hm. fold w' in Hm.
  assert (transcript w' = transcript w ++
            stored_pair prompt
              (agent_run prompt {| todays_date := today |}
                 (message_of <$> filter chat_role (transcript w)))) as Ht
    by (unfold transcript at 1; by rewrite Hm).
  rewrite main_idle; [| by left |].
  - rewrite (initialized_present _ _ Hm), Ht, display_events_app, stored_pair_display.
    by rewrite <- !app_assoc.
  - rewrite Ht. apply Forall_app. split; [done | apply stored_pair_has_keys].
Qed.

Lemma next_run_redraws_the_stored_exchange_witness :
  let w' := (main failing_agent "2024-05-01" (Some "What is new?") one_pair_world).2 in
  main paris_agent "2024-05-02" None w'
  = (inr tt,
     {| session_state := session_state w';
        trace := trace w' ++ [st_title "Research Assistant"] ++
                 display_events (transcript one_pair_world) ++
                 match failing_agent "What is new?" {| todays_date := "2024-05-01" |}
                         (message_of <$> filter chat_role (transcript one_pair_world)) with
                 | inr data => [st_chat_message "user"; st_markdown "What is new?";
                                st_chat_message "assistant";
                                st_markdown (full_response_of data)]
                 | inl _ => []
                 end ++
                 [st_chat_input "What would you like to research?"] |}).
Proof.
  apply (next_run_redraws_the_stored_exchange failing_agent paris_agent
           "2024-05-01" "2024-05-02" "What is new?" one_pair_world).
  - discriminate.
  - by_computation.
Defined.

(** ** Every session *)







(** ** The result schema *)

Lemma validate_str_insert_ne (payload : gmap string PyVal) (k f : string) (v : PyVal) :
  k ≠ f → validate_str (<[k := v]> payload) f = validate_str payload f.
Proof. intros Hk. unfold validate_str. by rewrite lookup_insert_ne. Qed.

Lemma validate_str_delete_ne (payload : gmap string PyVal) (k f : string) :
  k ≠ f → validate_str (delete k payload) f = validate_str payload f.
Proof. intros Hk. unfold validate_str. by rewrite lookup_delete_ne. Qed.

(** X9: keys other than the three fields play no part in validation: adding
    one, changing it or removing it gives the same result, be it the same
    [ResearchResult] or the same list of errors. *)
Theorem validation_ignores_other_keys
    (payload : gmap string PyVal) (k : string) (v : PyVal) :
  k ∉ required_fields →
  ResearchResult_validate (<[k := v]> payload) = ResearchResult_validate payload
  ∧ ResearchResult_validate (delete k payload) = ResearchResult_validate payload.
Proof.
  intros Hk. unfold required_fields in Hk.
  rewrite !not_elem_of_cons in Hk. destruct Hk as (H1 & H2 & H3 & _).
  unfold ResearchResult_validate.
  by rewrite !validate_str_insert_ne, !validate_str_delete_ne.
Qed.

Lemma validation_ignores_other_keys_witness :
  ResearchResult_validate (<["confidence" := py_int 3]> empty_payload)
    = ResearchResult_validate empty_payload
  ∧ ResearchResult_validate (delete "confidence" empty_payload)
    = ResearchResult_validate empty_payload.
Proof.
  apply (validation_ignores_other_keys empty_payload "confidence" (py_int 3)).
  by_computation.
Defined.

Lemma field_errors_missing (payload : gmap string PyVal) (f g : string) :
  missing g ∈ field_errors (validate_str payload f) ↔ g = f ∧ payload !! f = None.
Proof.
  unfold validate_str.
  destruct (payload !! f) as [[|x|x|x|x]|]; cbn;
    rewrite ?list_elem_of_singleton, ?elem_of_nil;
    (split; [intros Hin | intros [Hg Hf]]); by simplify_eq.
Qed.

Lemma field_errors_string_type (payload : gmap string PyVal) (f g : string) :
  string_type g ∈ field_errors (validate_str payload f)
  ↔ g = f ∧ ∃ v, payload !! f = Some v ∧ ∀ s, v ≠ py_str s.
Proof.
  unfold validate_str.
  destruct (payload !! f) as [[|x|x|x|x]|]; cbn;
    rewrite ?list_elem_of_singleton, ?elem_of_nil;
    (split; [intros Hin | intros (Hg & v & Hf & Hv)]); simplify_eq;
    try done; try (split; [done | eexists; split; [done | discriminate]]).
  by destruct (Hv x).
Qed.

Lemma research_result_fields (payload : gmap string PyVal) (data : ResearchResult) :
  ResearchResult_validate payload = inr data →
  payload !! "research_title" = Some (py_str (research_title data))
  ∧ payload !! "research_main" = Some (py_str (research_main data))
  ∧ payload !! "research_bullets" = Some (py_str (research_bullets data)).
Proof.
  unfold ResearchResult_validate, validate_str.
  destruct (payload !! "research_title") as [[|x1|x2|t0|x3]|];
    destruct (payload !! "research_main") as [[|y1|y2|m0|y3]|];
    destruct (payload !! "research_bullets") as [[|z1|z2|b0|z3]|];
    try discriminate.
  by intros [= <-].
Qed.

Lemma validate_errors (payload : gmap string PyVal) (errs : list FieldError) :
  ResearchResult_validate payload = inl errs →
  errs = field_errors (validate_str payload "research_title") ++
         field_errors (validate_str payload "research_main") ++
         field_errors (validate_str payload "research_bullets")
  ∧ errs ≠ [].
Proof.
  unfold ResearchResult_validate.
  destruct (validate_str payload "research_title") as [e1|t];
    destruct (validate_str payload "research_main") as [e2|m];
    destruct (validate_str payload "research_bullets") as [e3|b];
    intros [= <-]; done.
Qed.

(** X10: validation reports every field that is wrong, not the first only.
    When a payload is refused, the error list is not empty, it names a field
    as missing exactly when that field is one of the three and the payload
    has no such key, and as not a string exactly when the payload holds
    something else than a string there; the errors come in the order title,
    body, bullets.  When a payload is accepted, each of the three fields held
    a string. *)
Theorem validation_reports_every_bad_field (payload : gmap string PyVal) :
  match ResearchResult_validate payload with
  | inr data =>
      ∀ f, f ∈ required_fields → ∃ s, payload !! f = Some (py_str s)
  | inl errs =>
      errs ≠ []
      ∧ errs = flat_map (λ f, field_errors (validate_str payload f)) required_fields
      ∧ (∀ f, missing f ∈ errs ↔ f ∈ required_fields ∧ payload !! f = None)
      ∧ (∀ f, string_type f ∈ errs
              ↔ f ∈ required_fields ∧ ∃ v, payload !! f = Some v ∧ ∀ s, v ≠ py_str s)
  end.
Proof.
  destruct (ResearchResult_validate payload) as [errs|data] eqn:Hv.
  - destruct (validate_errors _ _ Hv) as [-> Hne].
    split; [done |]. split; [cbn; by rewrite app_nil_r |].
    unfold required_fields. split; intros f.
    + rewrite !elem_of_app, !field_errors_missing, !elem_of_cons, elem_of_nil.
      intuition (subst; auto).
    + rewrite !elem_of_app, !field_errors_string_type, !elem_of_cons, elem_of_nil.
      intuition (subst; auto).
  - apply research_result_fields in Hv as (Ht & Hm & Hb).
    unfold required_fields. intros f. rewrite !elem_of_cons, elem_of_nil.
    intros [-> | [-> | [-> | []]]]; eauto.
Qed.

(** ** The toolkit tool *)

(** X12: the toolkit tool reads the corpus, builds the index and queries it
    anew at every call, for the fixed directory custom_data and whatever the
    run context holds.  A failure of any of the three steps leaves the tool
    as it is raised, with nothing printed; on success the response is printed
    once and returned as the query engine gave it.  The session state is not
    touched either way. *)
Theorem toolkit_tool_forwards
    {Response Documents Index : Type}
    (load_data : string → Exception + Documents)
    (from_documents : Documents → Exception + Index)
    (query_engine_query : Index → string → Exception + Response)
    (response_str : Response → string)
    (ctx : RunContext ToolkitInfo) (query : string) (w : World) :
  let answer :=
    match load_data "custom_data" with
    | inl e => inl e
    | inr documents =>
        match from_documents documents with
        | inl e => inl e
        | inr index => query_engine_query index query
        end
    end in
  add_toolkit_information load_data from_documents query_engine_query response_str
    ctx query w
  = (answer,
     match answer with
     | inl _ => w
     | inr response =>
         {| session_state := session_state w;
            trace := trace w ++ [print (response_str response)] |}
     end).
Proof.
  cbn zeta. unfold add_toolkit_information, outcome, mbind, M_bind.
  destruct (load_data "custom_data") as [e|documents]; [done |].
  destruct (from_documents documents) as [e|index]; [done |].
  destruct (query_engine_query index query) as [e|response]; done.
Qed.

(** ** Calls of the agent *)

(** X13: a script run calls the agent at most once, and only for a prompt.
    Whatever the session state and the input, the trace of [main] extends
    the trace it found, and the calls of the agent in the extension are
    either none, or one call whose prompt is the submitted text, not empty,
    and whose dependencies hold the date of the day; with no input or an
    empty one there is never a call. *)
Theorem main_calls_agent_at_most_once
    (agent_run : string → Deps → list Message → Exception + ResearchResult)
    (today : string) (chat_input : option string) (w : World) :
  ∃ tr : list Event,
    trace (main agent_run today chat_input w).2 = trace w ++ tr
    ∧ (agent_calls tr = []
       ∨ ∃ prompt history,
           chat_input = Some prompt ∧ prompt ≠ ""
           ∧ agent_calls tr = [(prompt, {| todays_date := today |}, history)])
    ∧ (chat_input = None ∨ chat_input = Some "" → agent_calls tr = []).
Proof.
  destruct (Forall_first_failure has_keys (transcript w))
    as [Hall | (good & bad & rest & Ht & Hgood & Hbad)].
  - destruct (display_events_quiet (transcript w)) as (_ & _ & Ha).
    assert (chat_input = None ∨ chat_input = Some "" ∨
            ∃ prompt, chat_input = Some prompt ∧ prompt ≠ "") as [Hin | [Hin | Hin]].
    { destruct chat_input as [prompt|]; [| by left].
      destruct (decide (prompt = "")) as [->|]; eauto. }
    + eexists. rewrite main_idle by auto. split; [done |].
      rewrite !agent_calls_app, Ha. auto.
    + eexists. rewrite main_idle by auto. split; [done |].
      rewrite !agent_calls_app, Ha. auto.
    + destruct Hin as (prompt & -> & Hp).
      destruct (before_try_events_texts (transcript w) prompt) as (_ & _ & Hb).
      exists (before_try_events (transcript w) prompt ++
              [st_spinner "Researching... 🔍";
               search_agent_run prompt {| todays_date := today |}
                 (message_of <$> filter chat_role (transcript w))] ++
              match agent_run prompt {| todays_date := today |}
                      (message_of <$> filter chat_role (transcript w)) with
              | inr data => stream_events (response_parts data) ""
              | inl e => failure_events e
              end).
      rewrite main_run by done. cbn zeta.
      split; [destruct (agent_run _ _ _); cbn [snd trace]; by rewrite <- !app_assoc |].
      split; [| intros [? | ?]; simplify_eq].
      right. eexists prompt, _. split; [done |]. split; [done |].
      rewrite !agent_calls_app, Hb.
      destruct (agent_run _ _ _) as [e|data]; [by rewrite failure_events_quiet |].
      by destruct (stream_events_texts (response_parts data) "") as (_ & _ & ->).
  - destruct (display_events_quiet good) as (_ & _ & Ha).
    eexists. rewrite (main_bad _ _ _ good rest bad) by done. split; [done |].
    assert (agent_calls ([st_title "Research Assistant"] ++ display_events good ++
                         opened_bubble bad) = []) as Hnone.
    { rewrite !agent_calls_app, Ha. unfold opened_bubble. by destruct (bad !! "role"). }
    auto.
Qed.
